(** * Simple Auth API: the handlers of main.py, the schemas and the settings

    A shallow embedding of the request handlers (register, login, list users,
    get user by username), of the pydantic schemas they use and of the
    settings object.  Python [int] is [Z], Python [str] is [string] (one
    character of the Rocq string stands for one character of the Python
    string, so [String.length] is Python's [len]), a [datetime] is the number
    of seconds since the epoch and a [timedelta] a number of seconds.

    A handler is a program over the calls it makes to its collaborators (the
    SQLAlchemy session and the functions imported from auth.py); the
    interpreter [main.run] threads the table of users through those calls and
    records them in order. *)

From Stdlib Require Import ZArith List String Ascii Bool Lia Sorted.
Import ListNotations.
Local Open Scope string_scope.
Local Open Scope Z_scope.
Local Open Scope list_scope.
Set Warnings "-register-all".

(** ** JSON values and Python dicts *)

Inductive json : Type :=
| JNull
| JBool (b : bool)
| JInt (n : Z)
| JStr (s : string)
| JDatetime (t : Z)          (* a datetime, sent as its ISO 8601 text *)
| JArr (items : list json)
| JObj (members : list (string * json)).

(** A dict with string keys, in insertion order. *)
Definition dict : Type := list (string * json).

Fixpoint dict_get (k : string) (d : dict) : option json :=
  match d with
  | [] => None
  | (k', v) :: rest => if String.eqb k' k then Some v else dict_get k rest
  end.

(** [d.update({k: v})]: an existing key keeps its place and takes the new
    value, a new key goes to the end. *)
Fixpoint dict_update (k : string) (v : json) (d : dict) : dict :=
  match d with
  | [] => [(k, v)]
  | (k', v') :: rest =>
      if String.eqb k' k then (k, v) :: rest else (k', v') :: dict_update k v rest
  end.

Definition keys (d : dict) : list string := map fst d.

(** Does the field [f] occur as a key anywhere inside the value? *)
Fixpoint has_field (f : string) (j : json) : bool :=
  match j with
  | JArr items => existsb (has_field f) items
  | JObj members =>
      existsb (fun kv => String.eqb (fst kv) f || has_field f (snd kv)) members
  | _ => false
  end.

(** A value a caller supplies as text for a typed parameter (an
    environment variable, a query parameter): absent, read as a value of
    the type, or text that is not a value of the type. *)
Inductive Supplied (A : Type) : Type :=
| Absent
| Given (a : A)
| Malformed (raw : string).

Arguments Absent {A}.
Arguments Given {A} a.
Arguments Malformed {A} raw.

(** ** config.py *)

Module config.

Record Settings : Type := {
  APP_NAME : string;
  APP_VERSION : string;
  SECRET_KEY : string;
  ALGORITHM : string;
  ACCESS_TOKEN_EXPIRE_MINUTES : Z;
  DATABASE_URL : string;
  ENVIRONMENT : string;
  DEBUG : bool
}.

(** What the process environment (or .env) supplies: every setting may be
    absent; the text given for the integer and for the boolean setting may
    fail to be an integer or a boolean. *)
Record Environ : Type := {
  env_APP_NAME : option string;
  env_APP_VERSION : option string;
  env_SECRET_KEY : option string;
  env_ALGORITHM : option string;
  env_ACCESS_TOKEN_EXPIRE_MINUTES : Supplied Z;
  env_DATABASE_URL : option string;
  env_ENVIRONMENT : option string;
  env_DEBUG : Supplied bool
}.

Definition or_default {A : Type} (o : option A) (d : A) : A :=
  match o with Some a => a | None => d end.

(** A typed setting: the value read, the default when absent, and no
    value when the text given is not of the type. *)
Definition typed {A : Type} (x : Supplied A) (d : A) : option A :=
  match x with
  | Absent => Some d
  | Given a => Some a
  | Malformed _ => None
  end.

(** [Settings()]: SECRET_KEY and DATABASE_URL have no default, the other
    fields fall back on the defaults of the class; validation fails (no
    settings) when a required field is missing or a typed field cannot be
    read. *)
Definition load (env : Environ) : option Settings :=
  match env_SECRET_KEY env, env_DATABASE_URL env,
        typed (env_ACCESS_TOKEN_EXPIRE_MINUTES env) 1440,
        typed (env_DEBUG env) false with
  | Some key, Some url, Some minutes, Some debug =>
      Some {| APP_NAME := or_default (env_APP_NAME env) "Simple Auth API";
              APP_VERSION := or_default (env_APP_VERSION env) "1.0.0";
              SECRET_KEY := key;
              ALGORITHM := or_default (env_ALGORITHM env) "HS256";
              ACCESS_TOKEN_EXPIRE_MINUTES := minutes;
              DATABASE_URL := url;
              ENVIRONMENT := or_default (env_ENVIRONMENT env) "production";
              DEBUG := debug |}
  | _, _, _, _ => None
  end.

End config.

(** ** The users table *)

Module models.

(** Modelled from the spec: models.py (the User class and its table) is
    not among the sources.  The fields are the attributes main.py reads and
    the spec's User entity: numeric identifier, email, username, password
    hash, full name, active flag (default true), creation timestamp
    (server-assigned). *)
Record User : Type := {
  id : Z;
  email : string;
  username : string;
  hashed_password : string;
  full_name : string;
  is_active : bool;
  created_at : Z
}.

(** The keyword arguments of [models.User(...)] in register. *)
Record NewUser : Type := {
  new_email : string;
  new_username : string;
  new_hashed_password : string;
  new_full_name : string
}.

Inductive Column : Type := Email | Username.

Definition column (c : Column) (u : User) : string :=
  match c with Email => email u | Username => username u end.

(** Modelled from the spec: the store behind the SQLAlchemy session.
    [rows] holds the rows in the order in which the table gives them to a
    query that asks for no order; [id_seq] is the next identifier the table
    hands out (identifiers are assigned once and never reused). *)
Record Db : Type := { rows : list User; id_seq : Z }.

Definition empty : Db := {| rows := []; id_seq := 1 |}.

(** [db.query(User).filter(User.<c> == v).first()] *)
Definition first (c : Column) (v : string) (d : Db) : option User :=
  find (fun u => String.eqb (column c u) v) (rows d).

(** [db.query(User).count()] *)
Definition count (d : Db) : Z := Z.of_nat (List.length (rows d)).

(** OFFSET and LIMIT are 64-bit and not negative. *)
Definition in_range (n : Z) : bool := (0 <=? n) && (n <? 2 ^ 63).

(** [db.query(User).offset(skip).limit(limit).all()].  The query asks for
    no order: the rows come as the table gives them.  A [skip] or [limit]
    that is negative or does not fit 64 bits is refused ([None]). *)
Definition offset_limit (skip limit : Z) (d : Db) : option (list User) :=
  if in_range skip && in_range limit then
    Some (firstn (Z.to_nat limit) (skipn (Z.to_nat skip) (rows d)))
  else None.

Definition taken (n : NewUser) (d : Db) : bool :=
  existsb (fun u => String.eqb (email u) (new_email n)
                    || String.eqb (username u) (new_username n)) (rows d).

(** [db.add(u); db.commit(); db.refresh(u)].  [unique] says whether the
    table carries the uniqueness constraints on email and username (the
    table definition is not among the sources); with them the insert fails
    when either value is already present.  The row gets the next
    identifier, the default active flag and the server's time
    ([new_row]). *)
Definition new_row (d : Db) (now : Z) (n : NewUser) : User :=
  {| id := id_seq d;
     email := new_email n;
     username := new_username n;
     hashed_password := new_hashed_password n;
     full_name := new_full_name n;
     is_active := true;
     created_at := now |}.

Definition add_commit_refresh (unique : bool) (now : Z) (n : NewUser) (d : Db)
  : option (User * Db) :=
  if unique && taken n d then None
  else
    let u := new_row d now n in
    Some (u, {| rows := rows d ++ [u]; id_seq := id_seq d + 1 |}).

(** Rows in ascending order of identifier, all below the next one the
    table hands out. *)
Definition by_id (u v : User) : Prop := id u < id v.

Definition ordered (d : Db) : Prop :=
  StronglySorted by_id (rows d) /\ Forall (fun u => id u < id_seq d) (rows d).

(** Two rows that differ at most in the stored hash. *)
Definition same_but_hash (u u' : User) : Prop :=
  id u = id u' /\ email u = email u' /\ username u = username u' /\
  full_name u = full_name u' /\ is_active u = is_active u' /\
  created_at u = created_at u'.

(** No two rows with the same email, no two with the same username. *)
Definition unique_users (d : Db) : Prop :=
  NoDup (map email (rows d)) /\ NoDup (map username (rows d)).

End models.

(** ** schemas.py *)

Module schemas.

(** The JSON body of POST /register before validation. *)
Record RegisterBody : Type := {
  body_email : string;
  body_username : string;
  body_password : string;
  body_full_name : string
}.

Module UserRegister.
Record t : Type := {
  email : string;
  username : string;
  password : string;
  full_name : string
}.
End UserRegister.

Module UserLogin.
Record t : Type := { username : string; password : string }.
End UserLogin.

Module Token.
Record t : Type := {
  access_token : string;
  token_type : string;
  message : string
}.

Definition as_str (o : option json) : option string :=
  match o with Some (JStr s) => Some s | _ => None end.

(** Building the response model from the dict the handler returns. *)
Definition model_validate (d : dict) : option t :=
  match as_str (dict_get "access_token" d),
        as_str (dict_get "token_type" d),
        as_str (dict_get "message" d) with
  | Some a, Some ty, Some m =>
      Some {| access_token := a; token_type := ty; message := m |}
  | _, _, _ => None
  end.

Definition model_dump (x : t) : json :=
  JObj [("access_token", JStr (access_token x));
        ("token_type", JStr (token_type x));
        ("message", JStr (message x))].
End Token.

Module UserResponse.
Record t : Type := {
  id : Z;
  email : string;
  username : string;
  full_name : string;
  is_active : bool
}.

(** [from_attributes = True]: the fields are read off the ORM object. *)
Definition from_attributes (u : models.User) : t :=
  {| id := models.id u;
     email := models.email u;
     username := models.username u;
     full_name := models.full_name u;
     is_active := models.is_active u |}.

Definition model_dump (x : t) : json :=
  JObj [("id", JInt (id x));
        ("email", JStr (email x));
        ("username", JStr (username x));
        ("full_name", JStr (full_name x));
        ("is_active", JBool (is_active x))].
End UserResponse.

(** One entry of the detail list of a 422 response (its [msg] and [ctx]
    texts are left out). *)
Record ErrorDetail : Type := {
  err_type : string;
  err_field : string;
  err_input : string
}.

Definition error_json (e : ErrorDetail) : json :=
  JObj [("type", JStr (err_type e));
        ("loc", JArr [JStr "body"; JStr (err_field e)]);
        ("input", JStr (err_input e))].

Section Validation.

(** pydantic's [EmailStr]: refuses what is not an email address and
    gives back the address in normal form. *)
Variable EmailStr : string -> option string.

Definition check_email (s : string) : list ErrorDetail :=
  match EmailStr s with
  | Some _ => []
  | None => [{| err_type := "value_error"; err_field := "email"; err_input := s |}]
  end.

(** The value the validated model holds for an accepted address. *)
Definition normal_form (s : string) : string :=
  match EmailStr s with Some e => e | None => s end.

(** [Field(min_length=3, max_length=50)] *)
Definition check_username (s : string) : list ErrorDetail :=
  if (Z.of_nat (String.length s) <? 3) then
    [{| err_type := "string_too_short"; err_field := "username"; err_input := s |}]
  else if (50 <? Z.of_nat (String.length s)) then
    [{| err_type := "string_too_long"; err_field := "username"; err_input := s |}]
  else [].

(** [Field(min_length=8)] *)
Definition check_password (s : string) : list ErrorDetail :=
  if (Z.of_nat (String.length s) <? 8) then
    [{| err_type := "string_too_short"; err_field := "password"; err_input := s |}]
  else [].

(** Validation of the body against [UserRegister]: every field is
    checked and the errors are reported together, in field order. *)
Definition validate_register (b : RegisterBody)
  : list ErrorDetail + UserRegister.t :=
  match check_email (body_email b)
        ++ check_username (body_username b)
        ++ check_password (body_password b) with
  | [] =>
      inr {| UserRegister.email := normal_form (body_email b);
             UserRegister.username := body_username b;
             UserRegister.password := body_password b;
             UserRegister.full_name := body_full_name b |}
  | errs => inl errs
  end.

End Validation.

(** *** Bodies as they arrive *)

(** One entry of the detail list of a 422 answer in general: it echoes
    the input it refuses, which may be any JSON value (the [msg] and [ctx]
    texts are left out). *)
Record InputError : Type := {
  in_type : string;
  in_loc : list string;
  in_input : json
}.

Definition input_error_json (e : InputError) : json :=
  JObj [("type", JStr (in_type e));
        ("loc", JArr (map JStr (in_loc e)));
        ("input", in_input e)].

Definition of_field_error (e : ErrorDetail) : InputError :=
  {| in_type := err_type e;
     in_loc := ["body"; err_field e];
     in_input := JStr (err_input e) |}.

(** A [str] field of a JSON object: a missing field echoes the whole
    object, a value that is not a string echoes the value, a string goes
    through the checks of the field. *)
Definition read_str (m : dict) (field : string)
    (check : string -> list ErrorDetail) : list InputError :=
  match dict_get field m with
  | None => [{| in_type := "missing"; in_loc := ["body"; field];
                in_input := JObj m |}]
  | Some (JStr s) => map of_field_error (check s)
  | Some v => [{| in_type := "string_type"; in_loc := ["body"; field];
                  in_input := v |}]
  end.

Definition unchecked (s : string) : list ErrorDetail := [].

(** The errors of a JSON object as a [UserRegister], field by field. *)
Definition register_input_errors (EmailStr : string -> option string) (m : dict)
  : list InputError :=
  read_str m "email" (check_email EmailStr)
  ++ read_str m "username" check_username
  ++ read_str m "password" check_password
  ++ read_str m "full_name" unchecked.

(** The four strings of the object, when it has them. *)
Definition register_body (m : dict) : option RegisterBody :=
  match dict_get "email" m, dict_get "username" m,
        dict_get "password" m, dict_get "full_name" m with
  | Some (JStr e), Some (JStr u), Some (JStr p), Some (JStr f) =>
      Some {| body_email := e; body_username := u;
              body_password := p; body_full_name := f |}
  | _, _, _, _ => None
  end.

(** The errors of a JSON object as a [UserLogin]. *)
Definition login_input_errors (m : dict) : list InputError :=
  read_str m "username" unchecked ++ read_str m "password" unchecked.

Definition login_body (m : dict) : option UserLogin.t :=
  match dict_get "username" m, dict_get "password" m with
  | Some (JStr u), Some (JStr p) =>
      Some {| UserLogin.username := u; UserLogin.password := p |}
  | _, _ => None
  end.

(** A body that is not a JSON object. *)
Definition not_an_object (j : json) : InputError :=
  {| in_type := "model_attributes_type"; in_loc := ["body"]; in_input := j |}.

(** A query parameter that is not an integer. *)
Definition query_errors (param : string) (x : Supplied Z) : list InputError :=
  match x with
  | Malformed raw => [{| in_type := "int_parsing"; in_loc := ["query"; param];
                         in_input := JStr raw |}]
  | _ => []
  end.

Definition query_value (x : Supplied Z) : option Z :=
  match x with Given z => Some z | _ => None end.

End schemas.

(** ** auth.py *)

(** The three functions main.py imports from auth.py, which is not among the
    sources.  The salt a hash draws and the time a token is issued at are
    explicit arguments. *)
Class AuthModule : Type := {
  hash_password : string -> string -> string;        (* salt, password *)
  verify_password : string -> string -> bool;        (* password, hash *)
  create_access_token : config.Settings -> Z -> dict -> Z -> string
                                                     (* settings, now, data, expires_delta *)
}.

Module auth.

(** The text of [s] up to its first [c], and the text after it. *)
Fixpoint split_at (c : ascii) (s : string) : option (string * string) :=
  match s with
  | EmptyString => None
  | String a rest =>
      if Ascii.eqb a c then Some (EmptyString, rest)
      else match split_at c rest with
           | Some (l, r) => Some (String a l, r)
           | None => None
           end
  end.

Fixpoint occurs (c : ascii) (s : string) : bool :=
  match s with
  | EmptyString => false
  | String a rest => Ascii.eqb a c || occurs c rest
  end.

Section Hasher.

(** The name of the algorithm and the slow salted one-way function
    (salt, password to digest) the hasher is built on. *)
Variable scheme : string.
Variable kdf : string -> string -> string.

(** Modelled from the spec: hash_password of auth.py is missing.  The
    hash string is self-describing: it carries the algorithm and the
    salt in front of the digest.  Input that is not valid text (the
    spec's EncodingError) is outside [string]. *)
Definition hash (salt password : string) : string :=
  String "$" (String.append scheme
    (String "$" (String.append salt (String "$" (kdf salt password))))).

Definition parse (hash_string : string) : option (string * string * string) :=
  match hash_string with
  | String "$" rest =>
      match split_at "$" rest with
      | Some (alg, rest') =>
          match split_at "$" rest' with
          | Some (salt, digest) => Some (alg, salt, digest)
          | None => None
          end
      | None => None
      end
  | _ => None
  end.

(** Modelled from the spec: verify_password of auth.py is missing.  It
    recomputes the digest with the salt of the hash string and compares;
    a malformed hash string gives false. *)
Definition verify (password hash_string : string) : bool :=
  match parse hash_string with
  | Some (alg, salt, digest) =>
      String.eqb alg scheme && String.eqb (kdf salt password) digest
  | None => false
  end.

End Hasher.

(** Modelled from the spec: the Token entity (claims with issued-at and
    expiry, and a signature over them); its compact text form is left to
    [compact] below. *)
Record Token : Type := { payload : dict; signature : string }.

Inductive Verified : Type :=
| Claims (c : dict)
| InvalidToken.

Section Issuer.

(** The symmetric signing function: key, algorithm, payload. *)
Variable sign : string -> string -> dict -> string.
Variable settings : config.Settings.

Definition signature_of (p : dict) : string :=
  sign (config.SECRET_KEY settings) (config.ALGORITHM settings) p.

(** Modelled from the spec: the issuer of auth.py is missing.  The
    claims get the issued-at and expiry timestamps and the whole is
    signed with the configured key and algorithm. *)
Definition issue (now : Z) (claims : dict) (ttl : Z) : Token :=
  let p := dict_update "exp" (JInt (now + ttl))
             (dict_update "iat" (JInt now) claims) in
  {| payload := p; signature := signature_of p |}.

Definition expired (now : Z) (p : dict) : bool :=
  match dict_get "exp" p with
  | Some (JInt exp) => exp <? now
  | _ => false
  end.

(** Modelled from the spec: token verification, which auth.py would
    hold.  It fails if the signature is invalid or the current time is
    past the expiry, and yields the claims otherwise. *)
Definition verify_token (now : Z) (t : Token) : Verified :=
  if negb (String.eqb (signature t) (signature_of (payload t))) then InvalidToken
  else if expired now (payload t) then InvalidToken
  else Claims (payload t).

End Issuer.

(** The auth module assembled from the spec's hasher and issuer. *)
Definition from_spec (scheme : string) (kdf : string -> string -> string)
    (sign : string -> string -> dict -> string) (compact : Token -> string)
  : AuthModule :=
  {| hash_password := hash scheme kdf;
     verify_password := verify scheme kdf;
     create_access_token := fun settings now data expires_delta =>
       compact (issue sign settings now data expires_delta) |}.

End auth.

(** ** main.py *)

Module main.

Import models.

Inductive Exception : Type :=
| HTTPException (status_code : Z) (detail : string)
| IntegrityError               (* the commit hit a uniqueness constraint *)
| DataError                    (* the store refused the query *)
| ResponseValidationError.     (* the returned value does not fit response_model *)

(** The calls a handler makes, as they appear in a trace. *)
Inductive Call : Type :=
| CallFirst (c : Column) (v : string)
| CallOffsetLimit (skip limit : Z)
| CallCount
| CallAdd (n : NewUser)
| CallHash (password : string)
| CallVerify (password hashed : string)
| CallToken (data : dict) (expires_delta : Z).

(** A handler body: it returns, raises, or makes a call and goes on with
    the answer. *)
Inductive Prog (A : Type) : Type :=
| Ret (a : A)
| Raise (e : Exception)
| QueryFirst (c : Column) (v : string) (k : option User -> Prog A)
| QueryOffsetLimit (skip limit : Z) (k : list User -> Prog A)
| QueryCount (k : Z -> Prog A)
| AddCommitRefresh (n : NewUser) (k : User -> Prog A)
| HashPassword (password : string) (k : string -> Prog A)
| VerifyPassword (password hashed : string) (k : bool -> Prog A)
| CreateAccessToken (data : dict) (expires_delta : Z) (k : string -> Prog A).

Arguments Ret {A} a.
Arguments Raise {A} e.
Arguments QueryFirst {A} c v k.
Arguments QueryOffsetLimit {A} skip limit k.
Arguments QueryCount {A} k.
Arguments AddCommitRefresh {A} n k.
Arguments HashPassword {A} password k.
Arguments VerifyPassword {A} password hashed k.
Arguments CreateAccessToken {A} data expires_delta k.

Fixpoint bind {A B : Type} (p : Prog A) (f : A -> Prog B) : Prog B :=
  match p with
  | Ret a => f a
  | Raise e => Raise e
  | QueryFirst c v k => QueryFirst c v (fun x => bind (k x) f)
  | QueryOffsetLimit s l k => QueryOffsetLimit s l (fun x => bind (k x) f)
  | QueryCount k => QueryCount (fun x => bind (k x) f)
  | AddCommitRefresh n k => AddCommitRefresh n (fun x => bind (k x) f)
  | HashPassword p k => HashPassword p (fun x => bind (k x) f)
  | VerifyPassword p h k => VerifyPassword p h (fun x => bind (k x) f)
  | CreateAccessToken d e k => CreateAccessToken d e (fun x => bind (k x) f)
  end.

Notation "x <- c ;; k" := (c (fun x => k))
  (at level 61, c at next level, right associativity).

Definition timedelta_hours (h : Z) : Z := h * 3600.
Definition timedelta_minutes (m : Z) : Z := m * 60.

Definition truthy {A : Type} (o : option A) : bool :=
  match o with Some _ => true | None => false end.

(** *** The handlers *)

Definition register (user : schemas.UserRegister.t) : Prog User :=
  by_email <- QueryFirst Email (schemas.UserRegister.email user) ;;
  if truthy by_email then
    Raise (HTTPException 409 "Email already registered")
  else
    by_username <- QueryFirst Username (schemas.UserRegister.username user) ;;
    if truthy by_username then
      Raise (HTTPException 409 "Username already taken")
    else
      hashed <- HashPassword (schemas.UserRegister.password user) ;;
      db_user <- AddCommitRefresh
                   {| new_email := schemas.UserRegister.email user;
                      new_username := schemas.UserRegister.username user;
                      new_hashed_password := hashed;
                      new_full_name := schemas.UserRegister.full_name user |} ;;
      Ret db_user.

Definition invalid_credentials : Exception :=
  HTTPException 401 "Invalid username or password".

(** [if not user or not verify_password(...)]: the password is verified
    only when a user was found, and both ways of failing raise the same
    exception. *)
Definition login (credentials : schemas.UserLogin.t) : Prog dict :=
  found <- QueryFirst Username (schemas.UserLogin.username credentials) ;;
  match found with
  | None => Raise invalid_credentials
  | Some user =>
      ok <- VerifyPassword (schemas.UserLogin.password credentials)
                           (hashed_password user) ;;
      if negb ok then Raise invalid_credentials
      else if negb (is_active user) then
        Raise (HTTPException 403 "Account is disabled")
      else
        access_token <- CreateAccessToken
                          [("user_id", JInt (id user));
                           ("username", JStr (username user))]
                          (timedelta_hours 24) ;;
        Ret [("access_token", JStr access_token);
             ("token_type", JStr "bearer");
             ("message", JStr (String.append "Welcome back, "
                                 (String.append (username user) "!")))]
  end.

Definition public_view (user : User) : json :=
  JObj [("id", JInt (id user));
        ("email", JStr (email user));
        ("username", JStr (username user));
        ("full_name", JStr (full_name user));
        ("created_at", JDatetime (created_at user))].

(** The page of users is queried first; the count is taken when the
    answer is built. *)
Definition get_all_users (skip limit : Z) : Prog dict :=
  users <- QueryOffsetLimit skip limit ;;
  total <- QueryCount ;;
  Ret [("total", JInt total);
       ("showing", JInt (Z.of_nat (List.length users)));
       ("users", JArr (map public_view users))].

Definition get_user_by_username (name : string) : Prog User :=
  found <- QueryFirst Username name ;;
  match found with
  | None => Raise (HTTPException 404 "User not found")
  | Some user => Ret user
  end.

(** *** Running a handler against the store *)

(** What one request draws from outside: the salt of a hash and the time. *)
Record Env : Type := { salt : string; now : Z }.

Record Result (A : Type) : Type := {
  trace : list Call;
  outcome : Exception + A;
  final : Db
}.

Arguments trace {A} r.
Arguments outcome {A} r.
Arguments final {A} r.

Definition after {A : Type} (c : Call) (r : Result A) : Result A :=
  {| trace := c :: trace r; outcome := outcome r; final := final r |}.

Definition stop {A : Type} (o : Exception + A) (d : Db) : Result A :=
  {| trace := []; outcome := o; final := d |}.

Definition prepend {A : Type} (t : list Call) (r : Result A) : Result A :=
  {| trace := t ++ trace r; outcome := outcome r; final := final r |}.

Record Response : Type := { status_code : Z; body : json }.

Inductive Request : Type :=
| PostRegister (b : schemas.RegisterBody)
| PostLogin (c : schemas.UserLogin.t)
| GetUsers (skip limit : option Z)
| GetUser (name : string).

(** What the framework sends for an exception: an HTTPException gives its
    status and detail, anything else an internal error without detail. *)
Definition exception_response (e : Exception) : Response :=
  match e with
  | HTTPException code detail =>
      {| status_code := code; body := JObj [("detail", JStr detail)] |}
  | _ => {| status_code := 500; body := JStr "Internal Server Error" |}
  end.

Definition conflict (detail : string) : Response :=
  exception_response (HTTPException 409 detail).

Definition unauthorized : Response :=
  exception_response (HTTPException 401 "Invalid username or password").

Definition forbidden : Response :=
  exception_response (HTTPException 403 "Account is disabled").

Definition not_found : Response :=
  exception_response (HTTPException 404 "User not found").

Definition unprocessable (errs : list schemas.ErrorDetail) : Response :=
  {| status_code := 422;
     body := JObj [("detail", JArr (map schemas.error_json errs))] |}.

Definition user_response (status : Z) (u : User) : Response :=
  {| status_code := status;
     body := schemas.UserResponse.model_dump
               (schemas.UserResponse.from_attributes u) |}.

Definition unprocessable_input (errs : list schemas.InputError) : Response :=
  {| status_code := 422;
     body := JObj [("detail", JArr (map schemas.input_error_json errs))] |}.

(** A request as it arrives: the bodies are any JSON value, the query
    parameters are text. *)
Inductive RawRequest : Type :=
| RawRegister (sent : json)
| RawLogin (sent : json)
| RawUsers (skip limit : Supplied Z)
| RawUser (name : string).

(** The JSON the client sent with a request. *)
Definition sent_json (rr : RawRequest) : json :=
  match rr with
  | RawRegister j => j
  | RawLogin j => j
  | _ => JNull
  end.

(** The password a login request carries. *)
Definition sent_password (rr : RawRequest) : option string :=
  match rr with
  | RawLogin (JObj m) => schemas.Token.as_str (dict_get "password" m)
  | _ => None
  end.

Definition respond (o : Exception + Response) : Response :=
  match o with inr r => r | inl e => exception_response e end.

Definition finished {A : Type} (p : Prog A) : option (Exception + A) :=
  match p with
  | Ret a => Some (inr a)
  | Raise e => Some (inl e)
  | _ => None
  end.

Section Run.

Context {auth_module : AuthModule}.
Variable EmailStr : string -> option string.
Variable settings : config.Settings.
Variable unique : bool.

(** One call of the program, made against the store: the call, the rest
    of the program and the store afterwards; [None] when the program has
    returned or raised. *)
Definition step {A : Type} (e : Env) (p : Prog A) (d : Db)
  : option (Call * Prog A * Db) :=
  match p with
  | Ret _ | Raise _ => None
  | QueryFirst c v k => Some (CallFirst c v, k (first c v d), d)
  | QueryOffsetLimit s l k =>
      Some (CallOffsetLimit s l,
            match offset_limit s l d with
            | Some us => k us
            | None => Raise DataError
            end, d)
  | QueryCount k => Some (CallCount, k (count d), d)
  | AddCommitRefresh n k =>
      match add_commit_refresh unique (now e) n d with
      | Some (u, d') => Some (CallAdd n, k u, d')
      | None => Some (CallAdd n, Raise IntegrityError, d)
      end
  | HashPassword pw k => Some (CallHash pw, k (hash_password (salt e) pw), d)
  | VerifyPassword pw h k => Some (CallVerify pw h, k (verify_password pw h), d)
  | CreateAccessToken data delta k =>
      Some (CallToken data delta,
            k (create_access_token settings (now e) data delta), d)
  end.

(** A whole request, its calls made one after the other. *)
Fixpoint run {A : Type} (e : Env) (p : Prog A) (d : Db) : Result A :=
  match p with
  | Ret a => stop (inr a) d
  | Raise x => stop (inl x) d
  | QueryFirst c v k => after (CallFirst c v) (run e (k (first c v d)) d)
  | QueryOffsetLimit s l k =>
      after (CallOffsetLimit s l)
        match offset_limit s l d with
        | Some us => run e (k us) d
        | None => stop (inl DataError) d
        end
  | QueryCount k => after CallCount (run e (k (count d)) d)
  | AddCommitRefresh n k =>
      after (CallAdd n)
        match add_commit_refresh unique (now e) n d with
        | Some (u, d') => run e (k u) d'
        | None => stop (inl IntegrityError) d
        end
  | HashPassword pw k =>
      after (CallHash pw) (run e (k (hash_password (salt e) pw)) d)
  | VerifyPassword pw h k =>
      after (CallVerify pw h) (run e (k (verify_password pw h)) d)
  | CreateAccessToken data delta k =>
      after (CallToken data delta)
        (run e (k (create_access_token settings (now e) data delta)) d)
  end.

(** The object register builds from a validated request. *)
Definition new_user (e : Env) (user : schemas.UserRegister.t) : NewUser :=
  {| new_email := schemas.UserRegister.email user;
     new_username := schemas.UserRegister.username user;
     new_hashed_password :=
       hash_password (salt e) (schemas.UserRegister.password user);
     new_full_name := schemas.UserRegister.full_name user |}.

(** The token login asks for, and the body it answers with. *)
Definition token_for (e : Env) (user : User) : string :=
  create_access_token settings (now e)
    [("user_id", JInt (id user)); ("username", JStr (username user))]
    (timedelta_hours 24).

Definition welcome (e : Env) (user : User) : dict :=
  [("access_token", JStr (token_for e user));
   ("token_type", JStr "bearer");
   ("message", JStr (String.append "Welcome back, "
                       (String.append (username user) "!")))].

(** The routes: validation of the input, the handler, and the response
    built from what it returns ([response_model], [status_code]). *)
Definition serve (r : Request) : Prog Response :=
  match r with
  | PostRegister b =>
      match schemas.validate_register EmailStr b with
      | inl errs => Ret (unprocessable errs)
      | inr user =>
          bind (register user) (fun db_user => Ret (user_response 201 db_user))
      end
  | PostLogin c =>
      bind (login c) (fun d =>
        match schemas.Token.model_validate d with
        | Some t => Ret {| status_code := 200; body := schemas.Token.model_dump t |}
        | None => Raise ResponseValidationError
        end)
  | GetUsers skip limit =>
      bind (get_all_users (config.or_default skip 0) (config.or_default limit 10))
           (fun d => Ret {| status_code := 200; body := JObj d |})
  | GetUser name =>
      bind (get_user_by_username name) (fun user => Ret (user_response 200 user))
  end.

(** One request handled from start to end: the response and the store
    it leaves. *)
Definition handle (e : Env) (r : Request) (d : Db) : Response * Db :=
  let res := run e (serve r) d in (respond (outcome res), final res).

(** Two requests in flight at once: the schedule says which of them
    makes its next call ([true] for the first). *)
Fixpoint interleave {A : Type} (sched : list bool) (e1 e2 : Env)
    (p q : Prog A) (d : Db) : Prog A * Prog A * Db :=
  match sched with
  | [] => (p, q, d)
  | true :: s =>
      match step e1 p d with
      | Some (_, p', d') => interleave s e1 e2 p' q d'
      | None => interleave s e1 e2 p q d
      end
  | false :: s =>
      match step e2 q d with
      | Some (_, q', d') => interleave s e1 e2 p q' d'
      | None => interleave s e1 e2 p q d
      end
  end.

(** The two responses of a schedule that lets both requests finish. *)
Definition concurrently (sched : list bool) (e1 e2 : Env) (r1 r2 : Request)
    (d : Db) : option (Response * Response * Db) :=
  let '(p, q, d') := interleave sched e1 e2 (serve r1) (serve r2) d in
  match finished p, finished q with
  | Some o1, Some o2 => Some (respond o1, respond o2, d')
  | _, _ => None
  end.

(** The routes on requests as they arrive: a body or query that does not
    fit the declared types is answered 422 before the handler is entered;
    otherwise the route is served as above. *)
Definition serve_raw (rr : RawRequest) : Prog Response :=
  match rr with
  | RawRegister (JObj m) =>
      match schemas.register_body m with
      | Some b => serve (PostRegister b)
      | None => Ret (unprocessable_input (schemas.register_input_errors EmailStr m))
      end
  | RawRegister j => Ret (unprocessable_input [schemas.not_an_object j])
  | RawLogin (JObj m) =>
      match schemas.login_body m with
      | Some c => serve (PostLogin c)
      | None => Ret (unprocessable_input (schemas.login_input_errors m))
      end
  | RawLogin j => Ret (unprocessable_input [schemas.not_an_object j])
  | RawUsers skip limit =>
      match schemas.query_errors "skip" skip ++ schemas.query_errors "limit" limit with
      | [] => serve (GetUsers (schemas.query_value skip) (schemas.query_value limit))
      | errs => Ret (unprocessable_input errs)
      end
  | RawUser name => serve (GetUser name)
  end.

Definition handle_raw (e : Env) (rr : RawRequest) (d : Db) : Response * Db :=
  let res := run e (serve_raw rr) d in (respond (outcome res), final res).

(** Two stores that differ at most in the stored hashes, such that the
    hashes of corresponding rows verify the given password alike. *)
Definition alike (pw : option string) (u u' : User) : Prop :=
  same_but_hash u u' /\
  match pw with
  | Some p => verify_password p (hashed_password u)
              = verify_password p (hashed_password u')
  | None => True
  end.

Definition stores_alike (pw : option string) (d d' : Db) : Prop :=
  id_seq d = id_seq d' /\ Forall2 (alike pw) (rows d) (rows d').

(** The stores the service can be in: the empty table, and what any
    request leaves behind. *)
Inductive reachable : Db -> Prop :=
| reachable_empty : reachable empty
| reachable_handle (e : Env) (r : Request) (d : Db) :
    reachable d -> reachable (snd (handle e r d)).

End Run.

(** Exactly one 201 and one 409 among two responses. *)
Definition one_created_one_conflict (r1 r2 : Response) : bool :=
  ((status_code r1 =? 201) && (status_code r2 =? 409))
  || ((status_code r1 =? 409) && (status_code r2 =? 201)).

(** *** The two routes that make no call *)

(** [root()] *)
Definition root (settings : config.Settings) : dict :=
  [("message", JStr "Welcome to Simple Auth API");
   ("version", JStr (config.APP_VERSION settings));
   ("endpoints", JObj [("register", JStr "POST /register");
                       ("login", JStr "POST /login");
                       ("profile", JStr "GET /profile");
                       ("users", JStr "GET /users")]);
   ("docs", JStr "/docs")].

(** [health_check()] *)
Definition health_check (settings : config.Settings) : dict :=
  [("status", JStr "healthy");
   ("environment", JStr (config.ENVIRONMENT settings))].

(** *** Reading traces and answers *)

Definition is_verify (c : Call) : bool :=
  match c with CallVerify _ _ => true | _ => false end.

Definition is_token (c : Call) : bool :=
  match c with CallToken _ _ => true | _ => false end.

Definition is_add (c : Call) : bool :=
  match c with CallAdd _ => true | _ => false end.

(** The users array of a list-users answer. *)
Definition users_of (r : Response) : list json :=
  match body r with
  | JObj m => match dict_get "users" m with
              | Some (JArr items) => items
              | _ => []
              end
  | _ => []
  end.

(** The body fields of a register request that validation refuses, in
    field order. *)
Definition refused_fields (EmailStr : string -> option string)
    (b : schemas.RegisterBody) : list string :=
  (match EmailStr (schemas.body_email b) with Some _ => [] | None => ["email"] end)
  ++ (if (3 <=? Z.of_nat (String.length (schemas.body_username b)))
         && (Z.of_nat (String.length (schemas.body_username b)) <=? 50)
      then [] else ["username"])
  ++ (if 8 <=? Z.of_nat (String.length (schemas.body_password b))
      then [] else ["password"]).

End main.

(** ** Concrete collaborators and stores, on which the statements below are
    exercised *)

Module demo.

Import models main.

Definition kdf (salt password : string) : string := String.append salt password.

Fixpoint render (d : dict) : string :=
  match d with
  | [] => ""
  | (k, JInt n) :: rest =>
      String.append k (String (ascii_of_N (Z.to_N n mod 256)) (render rest))
  | (k, JStr s) :: rest => String.append k (String.append s (render rest))
  | (k, _) :: rest => String.append k (render rest)
  end.

Definition sign (key alg : string) (p : dict) : string :=
  String.append alg (String.append key (render p)).

Definition compact (t : auth.Token) : string :=
  String.append (render (auth.payload t)) (String "." (auth.signature t)).

Definition auth_module : AuthModule := auth.from_spec "kdf1" kdf sign compact.

Definition EmailStr (s : string) : option string :=
  if auth.occurs "@" s then Some s else None.

Definition environ (minutes : option Z) : config.Environ :=
  {| config.env_APP_NAME := None;
     config.env_APP_VERSION := None;
     config.env_SECRET_KEY := Some "s3cret";
     config.env_ALGORITHM := None;
     config.env_ACCESS_TOKEN_EXPIRE_MINUTES :=
       match minutes with Some m => Given m | None => Absent end;
     config.env_DATABASE_URL := Some "postgresql://db/auth";
     config.env_ENVIRONMENT := None;
     config.env_DEBUG := Absent |}.

Definition settings_of (minutes : option Z) : config.Settings :=
  {| config.APP_NAME := "Simple Auth API";
     config.APP_VERSION := "1.0.0";
     config.SECRET_KEY := "s3cret";
     config.ALGORITHM := "HS256";
     config.ACCESS_TOKEN_EXPIRE_MINUTES := config.or_default minutes 1440;
     config.DATABASE_URL := "postgresql://db/auth";
     config.ENVIRONMENT := "production";
     config.DEBUG := false |}.

Definition settings : config.Settings := settings_of None.

Definition env : Env := {| salt := "NaCl"; now := 1700000000 |}.

Definition body (name : string) : schemas.RegisterBody :=
  {| schemas.body_email := String.append name "@example.com";
     schemas.body_username := name;
     schemas.body_password := "correct horse";
     schemas.body_full_name := "Test User" |}.

Definition credentials (name password : string) : schemas.UserLogin.t :=
  {| schemas.UserLogin.username := name; schemas.UserLogin.password := password |}.

(** The store after the given users have registered, one after the other. *)
Definition registered (names : list string) : Db :=
  fold_left (fun d name =>
               snd (handle (auth_module := auth_module) EmailStr settings true
                      env (PostRegister (body name)) d))
            names empty.

(** A store in which the second account has been disabled (by an
    administrative process outside the service). *)
Definition with_disabled : Db :=
  match rows (registered ["alice"; "bobby"]) with
  | [a; b] =>
      {| rows := [a; {| id := id b; email := email b; username := username b;
                        hashed_password := hashed_password b;
                        full_name := full_name b; is_active := false;
                        created_at := created_at b |}];
         id_seq := 3 |}
  | _ => empty
  end.

Definition fifteen : list string :=
  map (fun i => String.append "user" (String (ascii_of_nat (97 + i)) ""))
      (seq 0 15).

(** What validation makes of a body it accepts (the addresses used here
    are in normal form already). *)
Definition validated (b : schemas.RegisterBody) : schemas.UserRegister.t :=
  {| schemas.UserRegister.email := schemas.body_email b;
     schemas.UserRegister.username := schemas.body_username b;
     schemas.UserRegister.password := schemas.body_password b;
     schemas.UserRegister.full_name := schemas.body_full_name b |}.

(** A second request for alice's email, under another username. *)
Definition alice_again : schemas.RegisterBody :=
  {| schemas.body_email := "alice@example.com";
     schemas.body_username := "alicia";
     schemas.body_password := "battery staple";
     schemas.body_full_name := "Alice A." |}.

(** A token for user 1 whose payload was changed to user 2 after it was
    signed. *)
Definition forged : auth.Token :=
  let t := auth.issue sign settings (now env)
             [("user_id", JInt 1); ("username", JStr "alice")]
             (timedelta_hours 24) in
  {| auth.payload := dict_update "user_id" (JInt 2) (auth.payload t);
     auth.signature := auth.signature t |}.

Definition alternating : list bool :=
  [true; false; true; false; true; false; true; false].

Definition alice : Request := PostRegister (body "alice").

(** A body that fails on all three checked fields. *)
Definition refused : schemas.RegisterBody :=
  {| schemas.body_email := "not an address";
     schemas.body_username := "al";
     schemas.body_password := "short";
     schemas.body_full_name := "Al" |}.

(** A request for alice's username under another email. *)
Definition alice_elsewhere : schemas.RegisterBody :=
  {| schemas.body_email := "alice@elsewhere.org";
     schemas.body_username := "alice";
     schemas.body_password := "correct horse";
     schemas.body_full_name := "Other Alice" |}.




(** The store after alice and bobby registered and an administrative
    update disabled alice: the table now gives the updated row last. *)
Definition after_update : Db :=
  match rows (registered ["alice"; "bobby"]) with
  | [a; b] =>
      {| rows := [b; {| id := id a; email := email a; username := username a;
                        hashed_password := hashed_password a;
                        full_name := full_name a; is_active := false;
                        created_at := created_at a |}];
         id_seq := 3 |}
  | _ => empty
  end.

(** The stored hashes replaced by other text. *)
Definition rehashed (d : Db) : Db :=
  {| rows := map (fun u => {| id := id u; email := email u;
                              username := username u;
                              hashed_password := "another hash";
                              full_name := full_name u;
                              is_active := is_active u;
                              created_at := created_at u |}) (rows d);
     id_seq := id_seq d |}.

(** A register body without the required fields, with a field of the
    client's own named hashed_password. *)
Definition stray : json := JObj [("hashed_password", JStr "x")].

(** The service with these collaborators and a constrained table. *)
Definition handle : Env -> Request -> Db -> Response * Db :=
  main.handle (auth_module := auth_module) EmailStr settings true.

End demo.

(** * Properties *)

Import models main.

Section Handlers.

Context {auth_module : AuthModule}.
Variable EmailStr : string -> option string.
Variable settings : config.Settings.
Variable unique : bool.

Abbreviation run := (main.run settings unique).
Abbreviation handle := (main.handle EmailStr settings unique).

(** *** The store *)

Lemma first_none (c : Column) (v : string) (d : Db) (u : User) :
  first c v d = None -> In u (rows d) -> String.eqb (column c u) v = false.
Proof.
  unfold first. intros Hnone Hin.
  exact (find_none _ _ Hnone u Hin).
Qed.

Lemma not_taken (n : NewUser) (d : Db) :
  first Email (new_email n) d = None ->
  first Username (new_username n) d = None ->
  taken n d = false.
Proof.
  intros He Hu. unfold taken.
  destruct (existsb _ (rows d)) eqn:T; [|reflexivity].
  apply existsb_exists in T. destruct T as (u & Hin & Hor).
  apply orb_true_iff in Hor. destruct Hor as [H|H].
  - pose proof (first_none Email _ d u He Hin) as F. simpl in F. congruence.
  - pose proof (first_none Username _ d u Hu Hin) as F. simpl in F. congruence.
Qed.

Lemma first_after_insert (c : Column) (v : string) (d : Db) (u : User) (s : Z) :
  first c v d = None ->
  first c v {| rows := rows d ++ [u]; id_seq := s |}
  = if String.eqb (column c u) v then Some u else None.
Proof.
  unfold first. simpl. induction (rows d) as [|x l IH]; simpl.
  - reflexivity.
  - destruct (String.eqb (column c x) v); [discriminate|exact IH].
Qed.

(** *** Sequencing *)

Lemma run_bind {A B : Type} (e : Env) (p : Prog A) (f : A -> Prog B) (d : Db) :
  run e (bind p f) d =
  match outcome (run e p d) with
  | inr a => prepend (trace (run e p d)) (run e (f a) (final (run e p d)))
  | inl x => {| trace := trace (run e p d); outcome := inl x;
                final := final (run e p d) |}
  end.
Proof.
  revert d. induction p as [a|x|c v k IH|s l k IH|k IH|n k IH|pw k IH|pw h k IH|dt dl k IH];
    intro d; cbn [bind main.run].
  - cbn. destruct (main.run _ _ e (f a) d); reflexivity.
  - reflexivity.
  - rewrite IH. cbn. destruct (outcome _); reflexivity.
  - destruct (offset_limit s l d); [|reflexivity].
    rewrite IH. cbn. destruct (outcome _); reflexivity.
  - rewrite IH. cbn. destruct (outcome _); reflexivity.
  - destruct (add_commit_refresh unique (now e) n d) as [[u d']|]; [|reflexivity].
    rewrite IH. cbn. destruct (outcome _); reflexivity.
  - rewrite IH. cbn. destruct (outcome _); reflexivity.
  - rewrite IH. cbn. destruct (outcome _); reflexivity.
  - rewrite IH. cbn. destruct (outcome _); reflexivity.
Qed.

(** *** The register handler, case by case *)

Lemma run_register (e : Env) (user : schemas.UserRegister.t) (d : Db) :
  run e (register user) d =
  match first Email (schemas.UserRegister.email user) d with
  | Some _ =>
      {| trace := [CallFirst Email (schemas.UserRegister.email user)];
         outcome := inl (HTTPException 409 "Email already registered");
         final := d |}
  | None =>
      match first Username (schemas.UserRegister.username user) d with
      | Some _ =>
          {| trace := [CallFirst Email (schemas.UserRegister.email user);
                       CallFirst Username (schemas.UserRegister.username user)];
             outcome := inl (HTTPException 409 "Username already taken");
             final := d |}
      | None =>
          let u := new_row d (now e) (new_user e user) in
          {| trace := [CallFirst Email (schemas.UserRegister.email user);
                       CallFirst Username (schemas.UserRegister.username user);
                       CallHash (schemas.UserRegister.password user);
                       CallAdd (new_user e user)];
             outcome := inr u;
             final := {| rows := rows d ++ [u]; id_seq := id_seq d + 1 |} |}
      end
  end.
Proof.
  unfold register. cbn [main.run].
  destruct (first Email _ d) eqn:He; cbn [truthy main.run]; [reflexivity|].
  destruct (first Username _ d) eqn:Hu; cbn [truthy main.run]; [reflexivity|].
  change (Build_NewUser _ _ _ _) with (new_user e user). unfold add_commit_refresh.
  rewrite (not_taken (new_user e user) d He Hu), andb_false_r.
  reflexivity.
Qed.

Lemma run_serve_register (e : Env) (b : schemas.RegisterBody)
    (user : schemas.UserRegister.t) (d : Db) :
  schemas.validate_register EmailStr b = inr user ->
  let r := run e (serve EmailStr (PostRegister b)) d in
  let r0 := run e (register user) d in
  trace r = trace r0 /\ final r = final r0 /\
  respond (outcome r) =
    match outcome r0 with
    | inr u => user_response 201 u
    | inl x => exception_response x
    end.
Proof.
  intros Hv. cbn [serve]. rewrite Hv. cbv zeta. rewrite run_bind.
  destruct (outcome (run e (register user) d)); cbn.
  - repeat split.
  - rewrite app_nil_r. repeat split.
Qed.

Lemma validate_register_ok (b : schemas.RegisterBody) (em : string) :
  EmailStr (schemas.body_email b) = Some em ->
  (3 <=? Z.of_nat (String.length (schemas.body_username b)))
  && (Z.of_nat (String.length (schemas.body_username b)) <=? 50)
  && (8 <=? Z.of_nat (String.length (schemas.body_password b))) = true ->
  schemas.validate_register EmailStr b =
  inr {| schemas.UserRegister.email := em;
         schemas.UserRegister.username := schemas.body_username b;
         schemas.UserRegister.password := schemas.body_password b;
         schemas.UserRegister.full_name := schemas.body_full_name b |}.
Proof.
  intros He Hlen.
  apply andb_true_iff in Hlen. destruct Hlen as [Hlen Hp].
  apply andb_true_iff in Hlen. destruct Hlen as [Hlo Hhi].
  unfold schemas.validate_register, schemas.check_email, schemas.check_username,
    schemas.check_password, schemas.normal_form.
  rewrite He.
  replace (_ <? 3) with false by (symmetry; apply Z.ltb_ge; lia).
  replace (50 <? _) with false by (symmetry; apply Z.ltb_ge; lia).
  replace (_ <? 8) with false by (symmetry; apply Z.ltb_ge; lia).
  reflexivity.
Qed.

Lemma validate_register_bad (b : schemas.RegisterBody) :
  EmailStr (schemas.body_email b) = None
  \/ (3 <=? Z.of_nat (String.length (schemas.body_username b)))
     && (Z.of_nat (String.length (schemas.body_username b)) <=? 50)
     && (8 <=? Z.of_nat (String.length (schemas.body_password b))) = false ->
  exists errs, schemas.validate_register EmailStr b = inl errs.
Proof.
  unfold schemas.validate_register, schemas.check_email, schemas.check_username,
    schemas.check_password.
  intros [He|Hlen].
  - rewrite He. cbn. eexists. reflexivity.
  - destruct (EmailStr _); [|cbn; eexists; reflexivity].
    destruct (_ <? 3) eqn:H3; [cbn; eexists; reflexivity|].
    destruct (50 <? _) eqn:H50; [cbn; eexists; reflexivity|].
    destruct (_ <? 8) eqn:H8; [cbn; eexists; reflexivity|].
    exfalso. apply Z.ltb_ge in H3, H50, H8.
    apply andb_false_iff in Hlen. destruct Hlen as [Hlen|Hlen].
    + apply andb_false_iff in Hlen. destruct Hlen as [Hlen|Hlen].
      * apply Z.leb_gt in Hlen. lia.
      * apply Z.leb_gt in Hlen. lia.
    + apply Z.leb_gt in Hlen. lia.
Qed.

(** C2. A register request goes through these steps, in this order and
    with no other call in between: validation of the body (email format,
    username of 3 to 50 characters, password of at least 8); lookup by
    email, a hit ending the request with 409; lookup by username, a hit
    ending it with 409; hashing of the password; the insert of the row
    with that hash; and the answer 201 with the user's public fields. *)
Theorem register_steps_in_order (e : Env) (b : schemas.RegisterBody) (d : Db) :
  let r := run e (serve EmailStr (PostRegister b)) d in
  let ulen := Z.of_nat (String.length (schemas.body_username b)) in
  let plen := Z.of_nat (String.length (schemas.body_password b)) in
  let name := schemas.body_username b in
  match EmailStr (schemas.body_email b) with
  | Some em =>
      if (3 <=? ulen) && (ulen <=? 50) && (8 <=? plen) then
        match first Email em d with
        | Some _ =>
            trace r = [CallFirst Email em] /\ final r = d /\
            respond (outcome r) =
              {| status_code := 409;
                 body := JObj [("detail", JStr "Email already registered")] |}
        | None =>
            match first Username name d with
            | Some _ =>
                trace r = [CallFirst Email em; CallFirst Username name] /\
                final r = d /\
                respond (outcome r) =
                  {| status_code := 409;
                     body := JObj [("detail", JStr "Username already taken")] |}
            | None =>
                let hashed := hash_password (salt e) (schemas.body_password b) in
                let n := {| new_email := em; new_username := name;
                            new_hashed_password := hashed;
                            new_full_name := schemas.body_full_name b |} in
                trace r = [CallFirst Email em; CallFirst Username name;
                           CallHash (schemas.body_password b); CallAdd n] /\
                final r = {| rows := rows d ++ [new_row d (now e) n];
                             id_seq := id_seq d + 1 |} /\
                respond (outcome r) =
                  {| status_code := 201;
                     body := JObj [("id", JInt (id_seq d));
                                   ("email", JStr em);
                                   ("username", JStr name);
                                   ("full_name", JStr (schemas.body_full_name b));
                                   ("is_active", JBool true)] |}
            end
        end
      else
        trace r = [] /\ final r = d /\ status_code (respond (outcome r)) = 422
  | None =>
      trace r = [] /\ final r = d /\ status_code (respond (outcome r)) = 422
  end.
Proof.
  cbv zeta.
  destruct (EmailStr (schemas.body_email b)) as [em|] eqn:He.
  - destruct (_ && _) eqn:Hlen.
    + pose proof (validate_register_ok b em He Hlen) as Hv.
      destruct (run_serve_register e b _ d Hv) as (Ht & Hf & Hr).
      rewrite Ht, Hf, Hr, run_register. cbn [schemas.UserRegister.email
        schemas.UserRegister.username schemas.UserRegister.password].
      destruct (first Email em d); [repeat split|].
      destruct (first Username _ d); repeat split.
    + destruct (validate_register_bad b (or_intror Hlen)) as (errs & Hv).
      cbn [serve]. rewrite Hv. repeat split.
  - destruct (validate_register_bad b (or_introl He)) as (errs & Hv).
    cbn [serve]. rewrite Hv. repeat split.
Qed.

(** *** The login handler *)

Lemma run_login (e : Env) (c : schemas.UserLogin.t) (d : Db) :
  let name := schemas.UserLogin.username c in
  let pw := schemas.UserLogin.password c in
  run e (login c) d =
  match first Username name d with
  | None => {| trace := [CallFirst Username name];
               outcome := inl invalid_credentials; final := d |}
  | Some u =>
      if verify_password pw (hashed_password u) then
        if is_active u then
          {| trace := [CallFirst Username name;
                       CallVerify pw (hashed_password u);
                       CallToken [("user_id", JInt (id u));
                                  ("username", JStr (username u))] 86400];
             outcome := inr (welcome settings e u); final := d |}
        else
          {| trace := [CallFirst Username name; CallVerify pw (hashed_password u)];
             outcome := inl (HTTPException 403 "Account is disabled");
             final := d |}
      else
        {| trace := [CallFirst Username name; CallVerify pw (hashed_password u)];
           outcome := inl invalid_credentials; final := d |}
  end.
Proof.
  cbv zeta. unfold login. cbn [main.run].
  destruct (first Username _ d) as [u|]; [|reflexivity].
  cbn [main.run].
  destruct (verify_password _ _); cbn [negb main.run]; [|reflexivity].
  destruct (is_active u); reflexivity.
Qed.

Lemma handle_login (e : Env) (c : schemas.UserLogin.t) (d : Db) :
  handle e (PostLogin c) d =
  (match first Username (schemas.UserLogin.username c) d with
   | None => unauthorized
   | Some u =>
       if verify_password (schemas.UserLogin.password c) (hashed_password u) then
         if is_active u then
           {| status_code := 200; body := JObj (welcome settings e u) |}
         else forbidden
       else unauthorized
   end, d).
Proof.
  unfold main.handle. cbn [serve]. rewrite run_bind, run_login. cbv zeta.
  destruct (first Username _ d) as [u|]; [|reflexivity].
  destruct (verify_password _ _); [|reflexivity].
  destruct (is_active u); reflexivity.
Qed.

(** C1. A login request whose username is unknown, or whose password does
    not verify against the stored hash, is answered 401 with one and the
    same body; a known user with a verifying password and a disabled
    account is answered 403; otherwise the answer is 200 with a token.
    The store is left as it was. *)
Theorem login_outcomes (e : Env) (c : schemas.UserLogin.t) (d : Db) :
  let found := first Username (schemas.UserLogin.username c) d in
  let verifies (u : User) :=
    verify_password (schemas.UserLogin.password c) (hashed_password u) in
  let r := handle e (PostLogin c) d in
  snd r = d /\
  (found = None \/ (exists u, found = Some u /\ verifies u = false) ->
   fst r = {| status_code := 401;
              body := JObj [("detail", JStr "Invalid username or password")] |}) /\
  (forall u, found = Some u -> verifies u = true -> is_active u = false ->
   fst r = {| status_code := 403;
              body := JObj [("detail", JStr "Account is disabled")] |}) /\
  (forall u, found = Some u -> verifies u = true -> is_active u = true ->
   fst r = {| status_code := 200;
              body := JObj [("access_token", JStr (token_for settings e u));
                            ("token_type", JStr "bearer");
                            ("message",
                             JStr (String.append "Welcome back, "
                                     (String.append (username u) "!")))] |}).
Proof.
  cbv zeta. rewrite handle_login. cbn [fst snd].
  split; [reflexivity|]. split; [|split].
  - intros [Hn|(u & Hs & Hv)].
    + rewrite Hn. reflexivity.
    + rewrite Hs, Hv. reflexivity.
  - intros u Hs Hv Ha. rewrite Hs, Hv, Ha. reflexivity.
  - intros u Hs Hv Ha. rewrite Hs, Hv, Ha. reflexivity.
Qed.

(** *** Every route, as the response and store it gives *)

Lemma handle_register (e : Env) (b : schemas.RegisterBody) (d : Db) :
  handle e (PostRegister b) d =
  match schemas.validate_register EmailStr b with
  | inl errs => (unprocessable errs, d)
  | inr user =>
      match first Email (schemas.UserRegister.email user) d with
      | Some _ => (conflict "Email already registered", d)
      | None =>
          match first Username (schemas.UserRegister.username user) d with
          | Some _ => (conflict "Username already taken", d)
          | None =>
              let u := new_row d (now e) (new_user e user) in
              (user_response 201 u,
               {| rows := rows d ++ [u]; id_seq := id_seq d + 1 |})
          end
      end
  end.
Proof.
  unfold main.handle.
  destruct (schemas.validate_register EmailStr b) as [errs|user] eqn:Hv.
  - cbn [serve]. rewrite Hv. reflexivity.
  - destruct (run_serve_register e b user d Hv) as (_ & Hf & Hr).
    rewrite Hf, Hr, run_register.
    destruct (first Email _ d); [reflexivity|].
    destruct (first Username _ d); reflexivity.
Qed.

Lemma handle_users (e : Env) (skip limit : option Z) (d : Db) :
  handle e (GetUsers skip limit) d =
  (match offset_limit (config.or_default skip 0) (config.or_default limit 10) d with
   | Some users =>
       {| status_code := 200;
          body := JObj [("total", JInt (count d));
                        ("showing", JInt (Z.of_nat (List.length users)));
                        ("users", JArr (map public_view users))] |}
   | None => exception_response DataError
   end, d).
Proof.
  unfold main.handle. cbn [serve]. rewrite run_bind.
  unfold get_all_users. cbn [main.run].
  destruct (offset_limit _ _ d); reflexivity.
Qed.

Lemma handle_user (e : Env) (name : string) (d : Db) :
  handle e (GetUser name) d =
  (match first Username name d with
   | Some u => user_response 200 u
   | None => not_found
   end, d).
Proof.
  unfold main.handle. cbn [serve]. rewrite run_bind.
  unfold get_user_by_username. cbn [main.run].
  destruct (first Username name d); reflexivity.
Qed.

Lemma offset_limit_ok (skip limit : Z) (d : Db) :
  0 <= skip < 2 ^ 63 -> 0 <= limit < 2 ^ 63 ->
  offset_limit skip limit d
  = Some (firstn (Z.to_nat limit) (skipn (Z.to_nat skip) (rows d))).
Proof.
  intros Hs Hl. unfold offset_limit, in_range.
  replace (0 <=? skip) with true by (symmetry; apply Z.leb_le; lia).
  replace (0 <=? limit) with true by (symmetry; apply Z.leb_le; lia).
  replace (skip <? 2 ^ 63) with true by (symmetry; apply Z.ltb_lt; lia).
  replace (limit <? 2 ^ 63) with true by (symmetry; apply Z.ltb_lt; lia).
  reflexivity.
Qed.


(** *** What the bodies contain *)

Lemma errors_without (f : string) (errs : list schemas.ErrorDetail) :
  String.eqb "type" f = false -> String.eqb "loc" f = false ->
  String.eqb "input" f = false ->
  existsb (has_field f) (map schemas.error_json errs) = false.
Proof.
  intros Ht Hl Hi. induction errs as [|x l IH]; [reflexivity|].
  cbn [map existsb has_field schemas.error_json fst snd].
  rewrite Ht, Hl, Hi, IH. reflexivity.
Qed.

Lemma views_without (f : string) (users : list User) :
  existsb (String.eqb f) ["id"; "email"; "username"; "full_name"; "created_at"]
  = false ->
  existsb (has_field f) (map public_view users) = false.
Proof.
  intros Hf. cbn in Hf.
  repeat (apply orb_false_iff in Hf; destruct Hf as [? Hf]).
  induction users as [|x l IH]; [reflexivity|].
  cbn [map existsb has_field public_view fst snd]. rewrite IH.
  rewrite !(String.eqb_sym _ f).
  repeat match goal with H : String.eqb f _ = false |- _ => rewrite H; clear H end.
  reflexivity.
Qed.

Lemma typed_bodies_without (e : Env) (r : Request) (d : Db) :
  has_field "hashed_password" (body (fst (handle e r d))) = false.
Proof.
  destruct r as [b|c|skip limit|name].
  - rewrite handle_register.
    destruct (schemas.validate_register EmailStr b) as [errs|user].
    + cbn. rewrite errors_without; reflexivity.
    + destruct (first Email _ d); [reflexivity|].
      destruct (first Username _ d); reflexivity.
  - rewrite handle_login.
    destruct (first Username _ d) as [u|]; [|reflexivity].
    destruct (verify_password _ _); [|reflexivity].
    destruct (is_active u); reflexivity.
  - rewrite handle_users.
    destruct (offset_limit _ _ d) as [users|]; [|reflexivity].
    cbn. rewrite views_without; reflexivity.
  - rewrite handle_user.
    destruct (first Username name d); reflexivity.
Qed.

(** *** Requests as they arrive *)

Abbreviation handle_raw := (main.handle_raw EmailStr settings unique).

Lemma handle_raw_eq (e : Env) (rr : RawRequest) (d : Db) :
  handle_raw e rr d =
  match rr with
  | RawRegister (JObj m) =>
      match schemas.register_body m with
      | Some b => handle e (PostRegister b) d
      | None => (unprocessable_input (schemas.register_input_errors EmailStr m), d)
      end
  | RawRegister j => (unprocessable_input [schemas.not_an_object j], d)
  | RawLogin (JObj m) =>
      match schemas.login_body m with
      | Some c => handle e (PostLogin c) d
      | None => (unprocessable_input (schemas.login_input_errors m), d)
      end
  | RawLogin j => (unprocessable_input [schemas.not_an_object j], d)
  | RawUsers skip limit =>
      match schemas.query_errors "skip" skip ++ schemas.query_errors "limit" limit with
      | [] => handle e (GetUsers (schemas.query_value skip) (schemas.query_value limit)) d
      | errs => (unprocessable_input errs, d)
      end
  | RawUser name => handle e (GetUser name) d
  end.
Proof.
  unfold main.handle_raw, main.handle.
  destruct rr as [j|j|skip limit|name]; cbn [serve_raw].
  - destruct j; try reflexivity. destruct (schemas.register_body members); reflexivity.
  - destruct j; try reflexivity. destruct (schemas.login_body members); reflexivity.
  - destruct (schemas.query_errors "skip" skip ++ schemas.query_errors "limit" limit);
      reflexivity.
  - reflexivity.
Qed.

(** A field found in a member of an object is found in the object. *)
Lemma has_field_member (f k : string) (m : dict) (v : json) :
  dict_get k m = Some v -> has_field f v = true -> has_field f (JObj m) = true.
Proof.
  intros Hg Hv. cbn [has_field]. induction m as [|[k' v'] m IH]; [discriminate|].
  cbn in Hg |- *. destruct (String.eqb k' k).
  - replace v' with v by congruence. rewrite Hv, orb_true_r. reflexivity.
  - rewrite (IH Hg), orb_true_r. reflexivity.
Qed.

Lemma checked_without (f : string) (errs : list schemas.ErrorDetail) :
  String.eqb "type" f = false -> String.eqb "loc" f = false ->
  String.eqb "input" f = false ->
  existsb (has_field f)
    (map schemas.input_error_json (map schemas.of_field_error errs)) = false.
Proof.
  intros Ht Hl Hi. induction errs as [|x l IH]; [reflexivity|].
  cbn [map existsb has_field schemas.input_error_json schemas.of_field_error
       schemas.in_type schemas.in_loc schemas.in_input fst snd].
  rewrite Ht, Hl, Hi, IH. reflexivity.
Qed.

(** An error entry has no field beyond those of the input it echoes. *)
Lemma echo_only (x : schemas.InputError) :
  has_field "hashed_password" (schemas.input_error_json x)
  = has_field "hashed_password" (schemas.in_input x).
Proof.
  unfold schemas.input_error_json. cbn [has_field existsb fst snd].
  assert (Hloc : existsb (has_field "hashed_password")
                   (map JStr (schemas.in_loc x)) = false).
  { induction (schemas.in_loc x) as [|a l IH]; [reflexivity|exact IH]. }
  rewrite Hloc.
  replace (String.eqb "type" "hashed_password") with false by reflexivity.
  replace (String.eqb "loc" "hashed_password") with false by reflexivity.
  replace (String.eqb "input" "hashed_password") with false by reflexivity.
  cbn [orb]. apply orb_false_r.
Qed.

(** The errors of one field echo nothing but what the object holds. *)
Lemma read_str_echo (m : dict) (field : string)
    (check : string -> list schemas.ErrorDetail) :
  existsb (has_field "hashed_password")
    (map schemas.input_error_json (schemas.read_str m field check)) = true ->
  has_field "hashed_password" (JObj m) = true.
Proof.
  unfold schemas.read_str.
  destruct (dict_get field m) as [v|] eqn:Hg.
  - destruct v;
      try (cbn [map existsb]; rewrite echo_only, orb_false_r;
           cbn [schemas.in_input]; intros H;
           exact (has_field_member _ _ _ _ Hg H)).
    rewrite checked_without by reflexivity. discriminate.
  - cbn [map existsb]. rewrite echo_only, orb_false_r. cbn [schemas.in_input].
    intros H; exact H.
Qed.

(** *** Stores that differ in the hashes only *)

Lemma first_alike (pw : option string) (c : Column) (v : string) (d d' : Db) :
  Forall2 (alike pw) (rows d) (rows d') ->
  match first c v d, first c v d' with
  | Some u, Some u' => alike pw u u'
  | None, None => True
  | _, _ => False
  end.
Proof.
  unfold first. induction 1 as [|u u' l l' Hu Hl IH]; cbn [find]; [exact I|].
  assert (Hc : column c u = column c u').
  { destruct Hu as [(_ & He & Hn & _) _]. destruct c; assumption. }
  rewrite Hc. destruct (String.eqb (column c u') v); [exact Hu|exact IH].
Qed.

Lemma views_alike (pw : option string) (l l' : list User) :
  Forall2 (alike pw) l l' -> map public_view l = map public_view l'.
Proof.
  induction 1 as [|u u' l l' Hu Hl IH]; [reflexivity|].
  cbn [map]. rewrite IH. f_equal.
  destruct Hu as [(Hi & He & Hn & Hf & _ & Hc) _].
  unfold public_view. rewrite Hi, He, Hn, Hf, Hc. reflexivity.
Qed.

Lemma login_body_password (m : dict) (c : schemas.UserLogin.t) :
  schemas.login_body m = Some c ->
  schemas.Token.as_str (dict_get "password" m) = Some (schemas.UserLogin.password c).
Proof.
  unfold schemas.login_body.
  destruct (dict_get "username" m) as [[| | |u| | |]|]; try discriminate.
  destruct (dict_get "password" m) as [[| | |p| | |]|]; try discriminate.
  intros H. assert (c = {| schemas.UserLogin.username := u;
                           schemas.UserLogin.password := p |}) as -> by congruence.
  reflexivity.
Qed.

Lemma handle_blind (e : Env) (r : Request) (pw : option string) (d d' : Db) :
  (forall c, r = PostLogin c -> pw = Some (schemas.UserLogin.password c)) ->
  stores_alike pw d d' ->
  fst (handle e r d) = fst (handle e r d').
Proof.
  intros Hpw [Hseq Hrows]. destruct r as [b|c|skip limit|name].
  - rewrite !handle_register.
    destruct (schemas.validate_register EmailStr b) as [errs|user]; [reflexivity|].
    pose proof (first_alike pw Email (schemas.UserRegister.email user) d d' Hrows) as Fe.
    destruct (first Email _ d), (first Email _ d'); try contradiction; [reflexivity|].
    pose proof (first_alike pw Username (schemas.UserRegister.username user) d d' Hrows)
      as Fu.
    destruct (first Username _ d), (first Username _ d'); try contradiction;
      [reflexivity|].
    cbn [fst]. unfold new_row. rewrite Hseq. reflexivity.
  - rewrite !handle_login. cbn [fst].
    pose proof (first_alike pw Username (schemas.UserLogin.username c) d d' Hrows) as Fu.
    destruct (first Username _ d) as [u|], (first Username _ d') as [u'|];
      try contradiction; [|reflexivity].
    destruct Fu as [(Hi & _ & Hn & _ & Ha & _) Hv].
    rewrite (Hpw c eq_refl) in Hv. rewrite Hv, Ha.
    unfold welcome, token_for. rewrite Hi, Hn. reflexivity.
  - rewrite !handle_users. cbn [fst]. unfold offset_limit, count.
    rewrite (Forall2_length Hrows).
    destruct (in_range _ && in_range _); [|reflexivity].
    set (n := Z.to_nat (config.or_default limit 10)).
    set (k := Z.to_nat (config.or_default skip 0)).
    assert (Hv : map public_view (firstn n (skipn k (rows d)))
                 = map public_view (firstn n (skipn k (rows d')))).
    { rewrite <- !firstn_map, <- !skipn_map, (views_alike pw _ _ Hrows).
      reflexivity. }
    rewrite <- (length_map public_view (firstn n (skipn k (rows d)))).
    rewrite <- (length_map public_view (firstn n (skipn k (rows d')))).
    rewrite Hv. reflexivity.
  - rewrite !handle_user. cbn [fst].
    pose proof (first_alike pw Username name d d' Hrows) as Fu.
    destruct (first Username _ d) as [u|], (first Username _ d') as [u'|];
      try contradiction; [|reflexivity].
    destruct Fu as [(Hi & He & Hn & Hf & Ha & _) _].
    unfold user_response, schemas.UserResponse.from_attributes.
    rewrite Hi, He, Hn, Hf, Ha. reflexivity.
Qed.

Lemma unprocessable_field (errs : list schemas.InputError) :
  has_field "hashed_password" (body (unprocessable_input errs))
  = existsb (has_field "hashed_password") (map schemas.input_error_json errs).
Proof.
  cbn [body unprocessable_input has_field existsb fst snd].
  replace (String.eqb "detail" "hashed_password") with false by reflexivity.
  cbn [orb]. apply orb_false_r.
Qed.

(** C6. No response body contains the password hash of a stored user,
    whatever the request (register, login, list, get by username) and
    whatever its outcome.  For requests that fit the declared types the
    body has no hashed_password field at any depth.  For requests as they
    arrive, a hashed_password field is in the body only where a 422 answer
    echoes the client's own input that has one.  And the response does not
    depend on the stored hashes: on two stores that differ at most in their
    hashes, and whose hashes verify the password of a login alike, every
    request gets the same response. *)
Theorem no_password_hash_in_bodies (e : Env) :
  (forall (r : Request) (d : Db),
     has_field "hashed_password" (body (fst (handle e r d))) = false) /\
  (forall (rr : RawRequest) (d : Db),
     has_field "hashed_password" (body (fst (handle_raw e rr d))) = true ->
     has_field "hashed_password" (sent_json rr) = true) /\
  (forall (rr : RawRequest) (d d' : Db),
     stores_alike (sent_password rr) d d' ->
     fst (handle_raw e rr d) = fst (handle_raw e rr d')).
Proof.
  split; [exact (typed_bodies_without e)|]. split.
  - intros rr d. rewrite handle_raw_eq.
    destruct rr as [j|j|skip limit|name]; cbn [sent_json].
    + destruct j;
        try (cbn [fst]; rewrite unprocessable_field; cbn [map existsb];
             rewrite echo_only, orb_false_r; intros H; exact H).
      destruct (schemas.register_body members) as [b|];
        [rewrite typed_bodies_without; discriminate|].
      cbn [fst]. rewrite unprocessable_field. unfold schemas.register_input_errors.
      rewrite !map_app, !existsb_app. intros H.
      repeat (apply orb_true_iff in H; destruct H as [H|H]);
        exact (read_str_echo _ _ _ H).
    + destruct j;
        try (cbn [fst]; rewrite unprocessable_field; cbn [map existsb];
             rewrite echo_only, orb_false_r; intros H; exact H).
      destruct (schemas.login_body members) as [c|];
        [rewrite typed_bodies_without; discriminate|].
      cbn [fst]. rewrite unprocessable_field. unfold schemas.login_input_errors.
      rewrite !map_app, !existsb_app. intros H.
      repeat (apply orb_true_iff in H; destruct H as [H|H]);
        exact (read_str_echo _ _ _ H).
    + destruct (schemas.query_errors "skip" skip ++ schemas.query_errors "limit" limit)
        as [|x l] eqn:Hq; [rewrite typed_bodies_without; discriminate|].
      cbn [fst]. rewrite unprocessable_field, <- Hq, map_app, existsb_app.
      destruct skip, limit; cbn [schemas.query_errors map existsb];
        rewrite ?echo_only; cbn [schemas.in_input has_field orb]; discriminate.
    + rewrite typed_bodies_without. discriminate.
  - intros rr d d' Hd. rewrite !handle_raw_eq.
    destruct rr as [j|j|skip limit|name].
    + destruct j; try reflexivity.
      destruct (schemas.register_body members) as [b|]; [|reflexivity].
      apply (handle_blind e (PostRegister b) None d d');
        [intros c H; discriminate H|exact Hd].
    + destruct j; try reflexivity.
      destruct (schemas.login_body members) as [c|] eqn:Hc; [|reflexivity].
      cbn [sent_password] in Hd. rewrite (login_body_password _ _ Hc) in Hd.
      apply (handle_blind e (PostLogin c) (Some (schemas.UserLogin.password c)) d d');
        [|exact Hd].
      intros c' H. replace c' with c by congruence. reflexivity.
    + destruct (schemas.query_errors "skip" skip ++ schemas.query_errors "limit" limit);
        [|reflexivity].
      apply (handle_blind e (GetUsers _ _) None d d');
        [intros c H; discriminate H|exact Hd].
    + apply (handle_blind e (GetUser name) None d d');
        [intros c H; discriminate H|exact Hd].
Qed.

(** C10. The user view of register and of get-by-username has exactly
    the fields id, email, username, full_name and is_active, the last one
    holding the account's active flag, and no creation timestamp; every
    user of the list-users answer has exactly id, email, username,
    full_name and created_at, and no is_active. *)
Theorem user_view_fields (e : Env) (d : Db) :
  (forall b, status_code (fst (handle e (PostRegister b) d)) = 201 ->
     exists m, body (fst (handle e (PostRegister b) d)) = JObj m /\
               keys m = ["id"; "email"; "username"; "full_name"; "is_active"]) /\
  (forall name u, first Username name d = Some u ->
     fst (handle e (GetUser name) d) =
       {| status_code := 200;
          body := JObj [("id", JInt (id u)); ("email", JStr (email u));
                        ("username", JStr (username u));
                        ("full_name", JStr (full_name u));
                        ("is_active", JBool (is_active u))] |}) /\
  (forall skip limit m items,
     body (fst (handle e (GetUsers skip limit) d)) = JObj m ->
     dict_get "users" m = Some (JArr items) ->
     Forall (fun j => exists f, j = JObj f /\
               keys f = ["id"; "email"; "username"; "full_name"; "created_at"])
            items).
Proof.
  split; [|split].
  - intros b. rewrite handle_register.
    destruct (schemas.validate_register EmailStr b) as [errs|user];
      [cbn; discriminate|].
    destruct (first Email _ d); [cbn; discriminate|].
    destruct (first Username _ d); [cbn; discriminate|].
    intros _. eexists. split; reflexivity.
  - intros name u Hu. rewrite handle_user, Hu. reflexivity.
  - intros skip limit m items. rewrite handle_users.
    destruct (offset_limit _ _ d) as [users|]; [|cbn; discriminate].
    cbn. intros Hm. injection Hm as <-. cbn. intros Hi. injection Hi as <-.
    apply Forall_forall. intros j Hj. apply in_map_iff in Hj.
    destruct Hj as (u & <- & _). eexists. split; reflexivity.
Qed.

(** *** The order of the rows *)

Lemma sorted_snoc {A : Type} (R : A -> A -> Prop) (l : list A) (a : A) :
  StronglySorted R l -> Forall (fun x => R x a) l -> StronglySorted R (l ++ [a]).
Proof.
  induction 1 as [|x l Hs IH Hx]; intros Ha; cbn.
  - constructor; constructor.
  - inversion Ha; subst. constructor.
    + apply IH. assumption.
    + apply Forall_app. split; [assumption|]. constructor; [assumption|constructor].
Qed.

Lemma sorted_skipn {A : Type} (R : A -> A -> Prop) (n : nat) (l : list A) :
  StronglySorted R l -> StronglySorted R (skipn n l).
Proof.
  revert l. induction n as [|n IH]; intros l Hs; [exact Hs|].
  destruct l as [|x l]; [constructor|].
  cbn. apply IH. inversion Hs; assumption.
Qed.

Lemma sorted_firstn {A : Type} (R : A -> A -> Prop) (n : nat) (l : list A) :
  StronglySorted R l -> StronglySorted R (firstn n l).
Proof.
  intros Hsorted. revert n.
  induction Hsorted as [|x l Hs IH Hx]; intros n.
  - rewrite firstn_nil. constructor.
  - destruct n as [|n]; cbn; constructor.
    + apply IH.
    + apply Forall_forall. intros y Hy.
      rewrite Forall_forall in Hx. apply Hx.
      rewrite <- (firstn_skipn n l). apply in_or_app. left. exact Hy.
Qed.

Lemma ordered_insert (d : Db) (t : Z) (n : NewUser) :
  ordered d ->
  ordered {| rows := rows d ++ [new_row d t n]; id_seq := id_seq d + 1 |}.
Proof.
  intros [Hs Hb]. split; cbn.
  - apply sorted_snoc; [exact Hs|exact Hb].
  - apply Forall_app. split.
    + eapply Forall_impl; [|exact Hb]. cbn. intros; lia.
    + constructor; [cbn; lia|constructor].
Qed.

Lemma handle_store (e : Env) (r : Request) (d : Db) :
  snd (handle e r d) = d \/
  exists n, snd (handle e r d) =
            {| rows := rows d ++ [new_row d (now e) n]; id_seq := id_seq d + 1 |}.
Proof.
  destruct r as [b|c|skip limit|name].
  - rewrite handle_register.
    destruct (schemas.validate_register EmailStr b) as [errs|user]; [left; reflexivity|].
    destruct (first Email _ d); [left; reflexivity|].
    destruct (first Username _ d); [left; reflexivity|].
    right. eexists. reflexivity.
  - rewrite handle_login. left. reflexivity.
  - rewrite handle_users. left. reflexivity.
  - rewrite handle_user. left. reflexivity.
Qed.

Lemma reachable_ordered (d : Db) :
  reachable EmailStr settings unique d -> ordered d.
Proof.
  induction 1 as [|e r d Hr IH].
  - split; constructor.
  - destruct (handle_store e r d) as [->|(n & ->)];
      [exact IH|apply ordered_insert; exact IH].
Qed.

(** C9 (amended). For [skip] and [limit] from 0 up to the 64-bit bound
    of the query, the query behind the list-users route gives the rows from
    position [skip] on, at most [limit] of them, in the order in which the
    table gives its rows (the query asks for no order), and the route
    answers with these users in that order; on a store that the service
    has reached from the empty table by its own requests that order is the
    order of insertion, which is ascending order of identifier. *)
Theorem list_in_table_order (e : Env) (d : Db) (skip limit : Z) :
  0 <= skip < 2 ^ 63 -> 0 <= limit < 2 ^ 63 ->
  let users := firstn (Z.to_nat limit) (skipn (Z.to_nat skip) (rows d)) in
  offset_limit skip limit d = Some users /\
  trace (run e (get_all_users skip limit) d)
    = [CallOffsetLimit skip limit; CallCount] /\
  users_of (fst (handle e (GetUsers (Some skip) (Some limit)) d))
    = map (fun u => JObj [("id", JInt (id u));
                          ("email", JStr (email u));
                          ("username", JStr (username u));
                          ("full_name", JStr (full_name u));
                          ("created_at", JDatetime (created_at u))]) users /\
  (reachable EmailStr settings unique d -> StronglySorted by_id users).
Proof.
  intros Hs Hl. cbv zeta. split; [apply offset_limit_ok; assumption|].
  split; [|split].
  - unfold get_all_users. cbn [main.run].
    rewrite (offset_limit_ok _ _ d Hs Hl). reflexivity.
  - rewrite handle_users. cbn [config.or_default fst].
    rewrite (offset_limit_ok _ _ d Hs Hl). reflexivity.
  - intros Hr. apply sorted_firstn, sorted_skipn. apply (reachable_ordered d Hr).
Qed.

(** *** Two requests: one after the other, and in flight together *)

Abbreviation interleave := (main.interleave settings unique).
Abbreviation concurrently := (main.concurrently EmailStr settings unique).

Lemma interleave_app {A : Type} (s1 s2 : list bool) (e1 e2 : Env)
    (p q : Prog A) (d : Db) :
  interleave (s1 ++ s2) e1 e2 p q d =
  let '(p', q', d') := interleave s1 e1 e2 p q d in interleave s2 e1 e2 p' q' d'.
Proof.
  revert p q d. induction s1 as [|b s IH]; intros p q d; [reflexivity|].
  destruct b; cbn [app main.interleave].
  - destruct (step settings unique e1 p d) as [[[c p'] d']|]; apply IH.
  - destruct (step settings unique e2 q d) as [[[c q'] d']|]; apply IH.
Qed.

(** Scheduled alone for as many calls as it makes, a request ends where
    [run] says it ends. *)
Lemma interleave_left {A : Type} (e1 e2 : Env) (p q : Prog A) (d : Db) :
  exists p',
    interleave (repeat true (List.length (trace (run e1 p d)))) e1 e2 p q d
    = (p', q, final (run e1 p d)) /\
    finished p' = Some (outcome (run e1 p d)).
Proof.
  revert d.
  induction p as [a|x|c v k IH|s l k IH|k IH|n k IH|pw k IH|pw h k IH|dt dl k IH];
    intro d; cbn [main.run after trace final outcome List.length repeat
                  main.interleave step].
  - eexists. split; reflexivity.
  - eexists. split; reflexivity.
  - apply IH.
  - destruct (offset_limit s l d); [apply IH|].
    eexists. split; reflexivity.
  - apply IH.
  - destruct (add_commit_refresh unique (now e1) n d) as [[u d']|]; [apply IH|].
    eexists. split; reflexivity.
  - apply IH.
  - apply IH.
  - apply IH.
Qed.

Lemma interleave_right {A : Type} (e1 e2 : Env) (p q : Prog A) (d : Db) :
  exists q',
    interleave (repeat false (List.length (trace (run e2 q d)))) e1 e2 p q d
    = (p, q', final (run e2 q d)) /\
    finished q' = Some (outcome (run e2 q d)).
Proof.
  revert d.
  induction q as [a|x|c v k IH|s l k IH|k IH|n k IH|pw k IH|pw h k IH|dt dl k IH];
    intro d; cbn [main.run after trace final outcome List.length repeat
                  main.interleave step].
  - eexists. split; reflexivity.
  - eexists. split; reflexivity.
  - apply IH.
  - destruct (offset_limit s l d); [apply IH|].
    eexists. split; reflexivity.
  - apply IH.
  - destruct (add_commit_refresh unique (now e2) n d) as [[u d']|]; [apply IH|].
    eexists. split; reflexivity.
  - apply IH.
  - apply IH.
  - apply IH.
Qed.

(** The schedule that lets the first request finish before the second
    starts gives what handling them in turn gives. *)
Lemma sequential_schedule (e1 e2 : Env) (r1 r2 : Request) (d : Db) :
  let res1 := run e1 (serve EmailStr r1) d in
  let res2 := run e2 (serve EmailStr r2) (final res1) in
  concurrently (repeat true (List.length (trace res1))
                ++ repeat false (List.length (trace res2))) e1 e2 r1 r2 d
  = Some (fst (handle e1 r1 d), fst (handle e2 r2 (snd (handle e1 r1 d))),
          snd (handle e2 r2 (snd (handle e1 r1 d)))).
Proof.
  cbv zeta. unfold main.concurrently. rewrite interleave_app.
  destruct (interleave_left e1 e2 (serve EmailStr r1) (serve EmailStr r2) d)
    as (p' & -> & Hp).
  destruct (interleave_right e1 e2 p' (serve EmailStr r2)
              (final (run e1 (serve EmailStr r1) d))) as (q' & -> & Hq).
  rewrite Hp, Hq. reflexivity.
Qed.

Lemma second_same_email (e1 e2 : Env) (b1 b2 : schemas.RegisterBody)
    (u1 u2 : schemas.UserRegister.t) (d : Db) :
  schemas.validate_register EmailStr b1 = inr u1 ->
  schemas.validate_register EmailStr b2 = inr u2 ->
  schemas.UserRegister.email u1 = schemas.UserRegister.email u2 ->
  first Email (schemas.UserRegister.email u1) d = None ->
  first Username (schemas.UserRegister.username u1) d = None ->
  let r1 := handle e1 (PostRegister b1) d in
  let r2 := handle e2 (PostRegister b2) (snd r1) in
  status_code (fst r1) = 201 /\
  fst r2 = conflict "Email already registered" /\
  snd r2 = snd r1.
Proof.
  intros Hv1 Hv2 Heq He Hu. cbv zeta.
  rewrite (handle_register e1 b1 d), Hv1, He, Hu. cbn [fst snd].
  split; [reflexivity|].
  rewrite handle_register, Hv2, <- Heq.
  rewrite (first_after_insert Email _ d _ _ He). cbn [column email new_row new_user new_email].
  rewrite String.eqb_refl. split; reflexivity.
Qed.

(** C4 (amended). When two register requests with the same email are
    handled one after the other, on a store where that email and both
    usernames are free, the first is answered 201 and the second 409,
    whichever of the two comes first; the second leaves the store as the
    first left it. *)
Theorem same_email_twice_in_sequence (e1 e2 : Env)
    (b1 b2 : schemas.RegisterBody) (u1 u2 : schemas.UserRegister.t) (d : Db) :
  schemas.validate_register EmailStr b1 = inr u1 ->
  schemas.validate_register EmailStr b2 = inr u2 ->
  schemas.UserRegister.email u1 = schemas.UserRegister.email u2 ->
  first Email (schemas.UserRegister.email u1) d = None ->
  first Username (schemas.UserRegister.username u1) d = None ->
  first Username (schemas.UserRegister.username u2) d = None ->
  (let r1 := handle e1 (PostRegister b1) d in
   let r2 := handle e2 (PostRegister b2) (snd r1) in
   status_code (fst r1) = 201 /\
   fst r2 = {| status_code := 409;
               body := JObj [("detail", JStr "Email already registered")] |} /\
   snd r2 = snd r1) /\
  (let r2 := handle e2 (PostRegister b2) d in
   let r1 := handle e1 (PostRegister b1) (snd r2) in
   status_code (fst r2) = 201 /\
   fst r1 = {| status_code := 409;
               body := JObj [("detail", JStr "Email already registered")] |} /\
   snd r1 = snd r2).
Proof.
  intros Hv1 Hv2 Heq He Hu1 Hu2. split.
  - exact (second_same_email e1 e2 b1 b2 u1 u2 d Hv1 Hv2 Heq He Hu1).
  - apply (second_same_email e2 e1 b2 b1 u2 u1 d Hv2 Hv1 (eq_sym Heq)).
    + rewrite <- Heq. exact He.
    + exact Hu2.
Qed.

End Handlers.

(** C4 (as stated, refuted). Two register requests with the same email in
    flight together, their calls alternating: both look the email up before
    either inserts.  With the uniqueness constraints on the table the
    answers are 201 and 500, without them 201 and 201 and the email is
    stored twice; in neither case one 201 and one 409. *)
Lemma same_email_concurrently_no_conflict :
  (exists r1 r2 d,
     main.concurrently (auth_module := demo.auth_module) demo.EmailStr
       demo.settings true demo.alternating demo.env demo.env demo.alice demo.alice
       empty = Some (r1, r2, d) /\
     status_code r1 = 201 /\ status_code r2 = 500 /\
     one_created_one_conflict r1 r2 = false) /\
  (exists r1 r2 d,
     main.concurrently (auth_module := demo.auth_module) demo.EmailStr
       demo.settings false demo.alternating demo.env demo.env demo.alice demo.alice
       empty = Some (r1, r2, d) /\
     status_code r1 = 201 /\ status_code r2 = 201 /\
     map email (rows d) = ["alice@example.com"; "alice@example.com"] /\
     one_created_one_conflict r1 r2 = false).
Proof.
  split.
  - do 3 eexists. split; [vm_compute; reflexivity|]. repeat split.
  - do 3 eexists. split; [vm_compute; reflexivity|]. repeat split.
Qed.

(** C9 (as stated, refuted). On the store in which alice, registered
    first, was disabled by an administrative update after bobby registered,
    the table gives bobby's row before alice's, and so does the listing:
    identifiers 2, 1, not ascending. *)
Lemma list_not_in_id_order :
  exists users,
    offset_limit 0 10 demo.after_update = Some users /\
    map id users = [2; 1] /\
    ~ StronglySorted by_id users /\
    users_of (fst (demo.handle demo.env (GetUsers (Some 0) (Some 10))
                     demo.after_update))
    = map public_view users.
Proof.
  eexists. split; [vm_compute; reflexivity|]. split; [reflexivity|]. split.
  - intros H. inversion H as [|u l _ Hall]; subst.
    inversion Hall as [|v l' Hlt _]; subst. vm_compute in Hlt. discriminate Hlt.
  - vm_compute. reflexivity.
Qed.

(** C7 (the code at the failing input). The environment supplies a token
    lifetime of 30 minutes and the settings load it; login still asks for a
    token of 86400 seconds, the 24 hours written in the handler, the token
    expires 86400 seconds after it was issued, and the answer is the same
    whatever lifetime the environment supplies. *)
Theorem login_lifetime_ignores_settings :
  config.load (demo.environ (Some 30)) = Some (demo.settings_of (Some 30)) /\
  timedelta_minutes
    (config.ACCESS_TOKEN_EXPIRE_MINUTES (demo.settings_of (Some 30))) = 1800 /\
  trace (main.run (auth_module := demo.auth_module) (demo.settings_of (Some 30)) true
           demo.env (login (demo.credentials "alice" "correct horse"))
           (demo.registered ["alice"]))
  = [CallFirst Username "alice";
     CallVerify "correct horse" "$kdf1$NaCl$NaClcorrect horse";
     CallToken [("user_id", JInt 1); ("username", JStr "alice")] 86400] /\
  dict_get "exp"
    (auth.payload
       (auth.issue demo.sign (demo.settings_of (Some 30)) (now demo.env)
          [("user_id", JInt 1); ("username", JStr "alice")] (timedelta_hours 24)))
  = Some (JInt (now demo.env + 86400)) /\
  (forall minutes,
     main.handle (auth_module := demo.auth_module) demo.EmailStr
       (demo.settings_of minutes) true demo.env
       (PostLogin (demo.credentials "alice" "correct horse"))
       (demo.registered ["alice"])
     = main.handle (auth_module := demo.auth_module) demo.EmailStr
         (demo.settings_of None) true demo.env
         (PostLogin (demo.credentials "alice" "correct horse"))
         (demo.registered ["alice"])).
Proof.
  repeat split; try (vm_compute; reflexivity).
Qed.

(** ** The hasher and the issuer *)

Section Hasher.

Variable scheme : string.
Variable kdf : string -> string -> string.




End Hasher.


Section Issuer.

Variable sign : string -> string -> dict -> string.
Variable settings : config.Settings.

Lemma dict_get_update_same (k : string) (v : json) (d : dict) :
  dict_get k (dict_update k v d) = Some v.
Proof.
  induction d as [|[k' v'] d IH]; cbn.
  - rewrite String.eqb_refl. reflexivity.
  - destruct (String.eqb k' k) eqn:E; cbn.
    + rewrite String.eqb_refl. reflexivity.
    + rewrite E. exact IH.
Qed.

Lemma dict_get_update_other (k k' : string) (v : json) (d : dict) :
  k <> k' -> dict_get k (dict_update k' v d) = dict_get k d.
Proof.
  intros Hk. induction d as [|[k0 v0] d IH]; cbn.
  - apply String.eqb_neq in Hk. rewrite String.eqb_sym, Hk. reflexivity.
  - destruct (String.eqb k0 k') eqn:E; cbn.
    + apply String.eqb_eq in E. subst k0.
      apply String.eqb_neq in Hk. rewrite String.eqb_sym, Hk. reflexivity.
    + destruct (String.eqb k0 k); [reflexivity|exact IH].
Qed.

(** C8. A token issued with a lifetime of 24 hours carries the claims it
    was issued for and expires 86400 seconds after issuance; verified at
    the time of issuance, and at any time up to the expiry, it yields its
    claims; verified at any time past the expiry it is invalid; and a
    token whose signature is not the signature of its payload is invalid
    at any time. *)
Theorem token_valid_until_expiry (issued : Z) (claims : dict) :
  let tok := auth.issue sign settings issued claims (timedelta_hours 24) in
  auth.verify_token sign settings issued tok = auth.Claims (auth.payload tok) /\
  (forall k, k <> "iat" -> k <> "exp" ->
     dict_get k (auth.payload tok) = dict_get k claims) /\
  dict_get "exp" (auth.payload tok) = Some (JInt (issued + 86400)) /\
  (forall t, t <= issued + 86400 ->
     auth.verify_token sign settings t tok = auth.Claims (auth.payload tok)) /\
  (forall t, issued + 86400 < t ->
     auth.verify_token sign settings t tok = auth.InvalidToken) /\
  (forall t forged,
     auth.signature forged <> auth.signature_of sign settings (auth.payload forged) ->
     auth.verify_token sign settings t forged = auth.InvalidToken).
Proof.
  cbv zeta.
  assert (Hexp : dict_get "exp"
            (auth.payload (auth.issue sign settings issued claims (timedelta_hours 24)))
            = Some (JInt (issued + 86400))).
  { cbn [auth.issue auth.payload]. rewrite dict_get_update_same. reflexivity. }
  assert (Hvalid : forall t, t <= issued + 86400 ->
            auth.verify_token sign settings t
              (auth.issue sign settings issued claims (timedelta_hours 24))
            = auth.Claims (auth.payload
                (auth.issue sign settings issued claims (timedelta_hours 24)))).
  { intros t Ht. unfold auth.verify_token, auth.expired. rewrite Hexp.
    cbn [auth.issue auth.payload auth.signature]. rewrite String.eqb_refl.
    cbn [negb]. replace (_ <? t) with false by (symmetry; apply Z.ltb_ge; lia).
    reflexivity. }
  split; [apply Hvalid; lia|]. split; [|split; [exact Hexp|split; [exact Hvalid|split]]].
  - intros k Hi He. cbn [auth.issue auth.payload].
    rewrite dict_get_update_other by exact He.
    apply dict_get_update_other. exact Hi.
  - intros t Ht. unfold auth.verify_token, auth.expired. rewrite Hexp.
    cbn [auth.issue auth.payload auth.signature]. rewrite String.eqb_refl.
    cbn [negb]. replace (_ <? t) with true by (symmetry; apply Z.ltb_lt; lia).
    reflexivity.
  - intros t forged Hsig. unfold auth.verify_token.
    apply String.eqb_neq in Hsig. rewrite Hsig. reflexivity.
Qed.

End Issuer.

(** ** The statements at concrete requests and stores *)

Lemma login_outcomes_witness :
  let login_as name password :=
    fst (main.handle (auth_module := demo.auth_module) demo.EmailStr demo.settings
           true demo.env (PostLogin (demo.credentials name password))
           demo.with_disabled) in
  login_as "carol" "correct horse" = unauthorized /\
  login_as "alice" "wrong password" = unauthorized /\
  login_as "bobby" "correct horse" = forbidden /\
  status_code (login_as "alice" "correct horse") = 200.
Proof.
  cbv zeta. split; [|split; [|split]].
  - apply (login_outcomes (auth_module := demo.auth_module) demo.EmailStr
             demo.settings true demo.env (demo.credentials "carol" "correct horse")
             demo.with_disabled).
    left. vm_compute. reflexivity.
  - apply (login_outcomes (auth_module := demo.auth_module) demo.EmailStr
             demo.settings true demo.env (demo.credentials "alice" "wrong password")
             demo.with_disabled).
    right. eexists. split; vm_compute; reflexivity.
  - eapply (login_outcomes (auth_module := demo.auth_module) demo.EmailStr
              demo.settings true demo.env (demo.credentials "bobby" "correct horse")
              demo.with_disabled); vm_compute; reflexivity.
  - pose proof (login_outcomes (auth_module := demo.auth_module) demo.EmailStr
                  demo.settings true demo.env
                  (demo.credentials "alice" "correct horse") demo.with_disabled) as H.
    cbv zeta in H. destruct H as (_ & _ & _ & H).
    erewrite H; [reflexivity|vm_compute; reflexivity..].
Defined.

Lemma same_email_twice_in_sequence_witness :
  let first_ := main.handle (auth_module := demo.auth_module) demo.EmailStr
                  demo.settings true demo.env (PostRegister (demo.body "alice"))
                  empty in
  let second := main.handle (auth_module := demo.auth_module) demo.EmailStr
                  demo.settings true demo.env (PostRegister demo.alice_again)
                  (snd first_) in
  status_code (fst first_) = 201 /\
  fst second = conflict "Email already registered" /\
  snd second = snd first_.
Proof.
  cbv zeta.
  apply (proj1 (same_email_twice_in_sequence (auth_module := demo.auth_module)
                  demo.EmailStr demo.settings true demo.env demo.env
                  (demo.body "alice") demo.alice_again
                  (demo.validated (demo.body "alice"))
                  (demo.validated demo.alice_again) empty
                  eq_refl eq_refl eq_refl eq_refl eq_refl eq_refl)).
Defined.

Lemma no_password_hash_in_bodies_witness :
  has_field "hashed_password"
    (body (fst (main.handle_raw (auth_module := demo.auth_module) demo.EmailStr
                  demo.settings true demo.env (RawRegister demo.stray)
                  demo.with_disabled))) = true /\
  has_field "hashed_password" (sent_json (RawRegister demo.stray)) = true /\
  fst (main.handle_raw (auth_module := demo.auth_module) demo.EmailStr
         demo.settings true demo.env (RawUsers Absent Absent) demo.with_disabled)
  = fst (main.handle_raw (auth_module := demo.auth_module) demo.EmailStr
           demo.settings true demo.env (RawUsers Absent Absent)
           (demo.rehashed demo.with_disabled)).
Proof.
  destruct (no_password_hash_in_bodies (auth_module := demo.auth_module)
              demo.EmailStr demo.settings true demo.env) as (_ & Hecho & Hblind).
  assert (H : has_field "hashed_password"
                (body (fst (main.handle_raw (auth_module := demo.auth_module)
                              demo.EmailStr demo.settings true demo.env
                              (RawRegister demo.stray) demo.with_disabled)))
              = true) by (vm_compute; reflexivity).
  split; [exact H|]. split; [exact (Hecho _ _ H)|].
  apply Hblind. split; [reflexivity|].
  vm_compute. repeat constructor.
Defined.



Lemma token_valid_until_expiry_witness :
  let tok := auth.issue demo.sign demo.settings 1700000000
               [("user_id", JInt 1); ("username", JStr "alice")]
               (timedelta_hours 24) in
  auth.verify_token demo.sign demo.settings 1700000000 tok
    = auth.Claims (auth.payload tok) /\
  dict_get "user_id" (auth.payload tok) = Some (JInt 1) /\
  auth.verify_token demo.sign demo.settings 1700086401 tok = auth.InvalidToken /\
  auth.verify_token demo.sign demo.settings 1700000000 demo.forged
    = auth.InvalidToken.
Proof.
  pose proof (token_valid_until_expiry demo.sign demo.settings 1700000000
                [("user_id", JInt 1); ("username", JStr "alice")]) as H.
  cbv zeta in *. destruct H as (Hnow & Hclaims & _ & _ & Hpast & Hforged).
  split; [exact Hnow|]. split; [|split].
  - rewrite Hclaims; [reflexivity|discriminate|discriminate].
  - apply Hpast. lia.
  - apply Hforged. vm_compute. discriminate.
Defined.

Lemma list_in_table_order_witness :
  map (dict_get "id")
    (map (fun j => match j with JObj m => m | _ => [] end)
       (users_of (fst (demo.handle demo.env (GetUsers (Some 1) (Some 10))
                         (demo.registered ["alice"; "bobby"; "carol"])))))
  = [Some (JInt 2); Some (JInt 3)] /\
  StronglySorted by_id
    (firstn 10 (skipn 1 (rows (demo.registered ["alice"; "bobby"; "carol"])))).
Proof.
  pose proof (list_in_table_order (auth_module := demo.auth_module)
                demo.EmailStr demo.settings true demo.env
                (demo.registered ["alice"; "bobby"; "carol"]) 1 10) as H.
  cbv zeta in H. destruct H as (_ & _ & Hlist & Hsorted); [lia|lia|].
  split.
  - unfold demo.handle. rewrite Hlist. vm_compute. reflexivity.
  - apply Hsorted. unfold demo.registered. cbn [fold_left].
    repeat apply reachable_handle. apply reachable_empty.
Defined.

Lemma user_view_fields_witness :
  (exists m,
     body (fst (main.handle (auth_module := demo.auth_module) demo.EmailStr
                  demo.settings true demo.env (PostRegister (demo.body "carol"))
                  demo.with_disabled)) = JObj m /\
     keys m = ["id"; "email"; "username"; "full_name"; "is_active"]) /\
  dict_get "is_active"
    match body (fst (main.handle (auth_module := demo.auth_module) demo.EmailStr
                       demo.settings true demo.env (GetUser "bobby")
                       demo.with_disabled)) with
    | JObj m => m
    | _ => []
    end = Some (JBool false) /\
  Forall (fun j => exists f, j = JObj f /\
            keys f = ["id"; "email"; "username"; "full_name"; "created_at"])
    (map public_view (rows demo.with_disabled)).
Proof.
  destruct (user_view_fields (auth_module := demo.auth_module) demo.EmailStr
              demo.settings true demo.env demo.with_disabled)
    as (Hreg & Hget & Hlist).
  split; [|split].
  - apply Hreg. vm_compute. reflexivity.
  - erewrite Hget by (vm_compute; reflexivity). reflexivity.
  - eapply (Hlist None None); vm_compute; reflexivity.
Defined.


(** * Further properties of the handlers, the schemas and the settings *)

Section Further.

Context {auth_module : AuthModule}.
Variable EmailStr : string -> option string.
Variable settings : config.Settings.
Variable unique : bool.

Abbreviation run := (main.run settings unique).
Abbreviation handle := (main.handle EmailStr settings unique).

(** ** schemas.py: what UserRegister accepts *)

Lemma validated_fields (b : schemas.RegisterBody) (u : schemas.UserRegister.t) :
  schemas.validate_register EmailStr b = inr u ->
  EmailStr (schemas.body_email b) = Some (schemas.UserRegister.email u) /\
  3 <= Z.of_nat (String.length (schemas.body_username b)) <= 50 /\
  8 <= Z.of_nat (String.length (schemas.body_password b)) /\
  schemas.UserRegister.username u = schemas.body_username b /\
  schemas.UserRegister.password u = schemas.body_password b /\
  schemas.UserRegister.full_name u = schemas.body_full_name b.
Proof.
  intros Hv.
  destruct (EmailStr (schemas.body_email b)) as [em|] eqn:He.
  - destruct ((3 <=? Z.of_nat (String.length (schemas.body_username b)))
              && (Z.of_nat (String.length (schemas.body_username b)) <=? 50)
              && (8 <=? Z.of_nat (String.length (schemas.body_password b))))
      eqn:Hlen.
    + rewrite (validate_register_ok EmailStr b em He Hlen) in Hv.
      injection Hv as <-. cbn.
      apply andb_true_iff in Hlen. destruct Hlen as [Hlen Hp].
      apply andb_true_iff in Hlen. destruct Hlen as [Hlo Hhi].
      apply Z.leb_le in Hlo, Hhi, Hp. repeat split; assumption.
    + destruct (validate_register_bad EmailStr b (or_intror Hlen)) as (errs & Hbad).
      congruence.
  - destruct (validate_register_bad EmailStr b (or_introl He)) as (errs & Hbad).
    congruence.
Qed.

(** X1. A register body is accepted exactly when its email passes
    EmailStr, its username has 3 to 50 characters and its password at least
    8; the validated request holds the email in normal form and the other
    three fields as they were sent. *)
Theorem register_body_accepted_iff (b : schemas.RegisterBody)
    (u : schemas.UserRegister.t) :
  schemas.validate_register EmailStr b = inr u <->
  EmailStr (schemas.body_email b) = Some (schemas.UserRegister.email u) /\
  3 <= Z.of_nat (String.length (schemas.body_username b)) <= 50 /\
  8 <= Z.of_nat (String.length (schemas.body_password b)) /\
  schemas.UserRegister.username u = schemas.body_username b /\
  schemas.UserRegister.password u = schemas.body_password b /\
  schemas.UserRegister.full_name u = schemas.body_full_name b.
Proof.
  split; [apply validated_fields|].
  intros (He & [Hlo Hhi] & Hp & Hu & Hpw & Hf).
  rewrite (validate_register_ok EmailStr b _ He).
  - destruct u; cbn in *; subst; reflexivity.
  - apply Z.leb_le in Hlo, Hhi, Hp. rewrite Hlo, Hhi, Hp. reflexivity.
Qed.

(** X2. A refused register body is answered with one error for each field
    that fails (email not an address, username shorter than 3 or longer
    than 50, password shorter than 8), all in one answer and in the order
    email, username, password; there is at least one. *)
Theorem register_errors_by_field (b : schemas.RegisterBody)
    (errs : list schemas.ErrorDetail) :
  schemas.validate_register EmailStr b = inl errs ->
  errs <> [] /\
  map schemas.err_field errs = refused_fields EmailStr b.
Proof.
  unfold schemas.validate_register, schemas.check_email, schemas.check_username,
    schemas.check_password, refused_fields.
  destruct (EmailStr (schemas.body_email b));
    destruct (Z.of_nat (String.length (schemas.body_username b)) <? 3) eqn:H3;
    destruct (50 <? Z.of_nat (String.length (schemas.body_username b))) eqn:H50;
    destruct (Z.of_nat (String.length (schemas.body_password b)) <? 8) eqn:H8;
    destruct (3 <=? Z.of_nat (String.length (schemas.body_username b))) eqn:L3;
    destruct (Z.of_nat (String.length (schemas.body_username b)) <=? 50) eqn:L50;
    destruct (8 <=? Z.of_nat (String.length (schemas.body_password b))) eqn:L8;
    try (exfalso;
         repeat match goal with
                | H : (_ <? _) = true |- _ => apply Z.ltb_lt in H
                | H : (_ <? _) = false |- _ => apply Z.ltb_ge in H
                | H : (_ <=? _) = true |- _ => apply Z.leb_le in H
                | H : (_ <=? _) = false |- _ => apply Z.leb_gt in H
                end; lia);
    cbn; intros Hv; try discriminate Hv; injection Hv as <-;
    (split; [discriminate|reflexivity]).
Qed.

(** ** main.py: what a request does to the store *)

(** X3. A register request changes the store exactly when it is answered
    201: then one row is added at the end, holding the next identifier, the
    validated email, the username and full name as sent, the hash of the
    password, the active flag set and the time of the request; with any
    other answer the store is as before. *)
Theorem register_store_effect (e : Env) (b : schemas.RegisterBody) (d : Db) :
  let r := handle e (PostRegister b) d in
  (status_code (fst r) = 201 ->
   exists u,
     snd r = {| rows := rows d ++ [u]; id_seq := id_seq d + 1 |} /\
     id u = id_seq d /\
     EmailStr (schemas.body_email b) = Some (email u) /\
     username u = schemas.body_username b /\
     full_name u = schemas.body_full_name b /\
     hashed_password u = hash_password (salt e) (schemas.body_password b) /\
     is_active u = true /\
     created_at u = now e) /\
  (status_code (fst r) <> 201 -> snd r = d).
Proof.
  cbv zeta. rewrite handle_register.
  destruct (schemas.validate_register EmailStr b) as [errs|user] eqn:Hv.
  - split; [cbn; discriminate|reflexivity].
  - apply validated_fields in Hv.
    destruct Hv as (He & _ & _ & Hu & Hp & Hf).
    destruct (first Email _ d); [split; [cbn; discriminate|reflexivity]|].
    destruct (first Username _ d); [split; [cbn; discriminate|reflexivity]|].
    split.
    + intros _. eexists. split; [reflexivity|]. cbn. rewrite Hp.
      repeat split; assumption.
    + cbn. intros H. contradiction H. reflexivity.
Qed.

(** X4. Login, list-users and get-by-username never change the store,
    whatever their input and outcome. *)
Theorem reads_leave_store (e : Env) (r : Request) (d : Db) :
  (forall b, r <> PostRegister b) -> snd (handle e r d) = d.
Proof.
  intros Hr. destruct r as [b|c|skip limit|name].
  - contradiction (Hr b). reflexivity.
  - rewrite handle_login. reflexivity.
  - rewrite handle_users. reflexivity.
  - rewrite handle_user. reflexivity.
Qed.

(** ** main.py: the uniqueness register keeps *)

Lemma first_none_not_in (c : Column) (v : string) (d : Db) :
  first c v d = None -> ~ In v (map (column c) (rows d)).
Proof.
  intros Hnone Hin. apply in_map_iff in Hin. destruct Hin as (u & <- & Hu).
  pose proof (first_none c _ d u Hnone Hu) as F.
  rewrite String.eqb_refl in F. discriminate.
Qed.

Lemma NoDup_snoc {A : Type} (l : list A) (a : A) :
  NoDup l -> ~ In a l -> NoDup (l ++ [a]).
Proof.
  intros Hl Ha. apply NoDup_rev in Hl.
  rewrite <- (rev_involutive (l ++ [a])). apply NoDup_rev.
  rewrite rev_app_distr. cbn. constructor; [|exact Hl].
  rewrite <- in_rev. exact Ha.
Qed.

Lemma handle_keeps_unique (e : Env) (r : Request) (d : Db) :
  unique_users d -> unique_users (snd (handle e r d)).
Proof.
  intros [He Hu]. destruct r as [b|c|skip limit|name].
  - rewrite handle_register.
    destruct (schemas.validate_register EmailStr b) as [errs|user]; [split; assumption|].
    destruct (first Email _ d) eqn:Fe; [split; assumption|].
    destruct (first Username _ d) eqn:Fu; [split; assumption|].
    split; cbn; rewrite map_app; cbn; apply NoDup_snoc; try assumption.
    + exact (first_none_not_in Email _ d Fe).
    + exact (first_none_not_in Username _ d Fu).
  - rewrite handle_login. split; assumption.
  - rewrite handle_users. split; assumption.
  - rewrite handle_user. split; assumption.
Qed.

(** X6. Handled one request at a time, register keeps emails and usernames
    unique by its own lookups: on every store the service reaches from the
    empty table, no two rows share an email and no two share a username,
    whether or not the table carries uniqueness constraints. *)
Theorem reachable_unique (d : Db) :
  reachable EmailStr settings unique d -> unique_users d.
Proof.
  induction 1 as [|e r d Hr IH].
  - split; constructor.
  - apply handle_keeps_unique. exact IH.
Qed.

(** ** main.py: register followed by another request *)

Lemma register_created (e : Env) (b : schemas.RegisterBody) (d : Db) :
  status_code (fst (handle e (PostRegister b) d)) = 201 ->
  exists user,
    schemas.validate_register EmailStr b = inr user /\
    first Email (schemas.UserRegister.email user) d = None /\
    first Username (schemas.UserRegister.username user) d = None /\
    handle e (PostRegister b) d =
      (user_response 201 (new_row d (now e) (new_user e user)),
       {| rows := rows d ++ [new_row d (now e) (new_user e user)];
          id_seq := id_seq d + 1 |}).
Proof.
  rewrite handle_register.
  destruct (schemas.validate_register EmailStr b) as [errs|user]; [cbn; discriminate|].
  destruct (first Email _ d) eqn:Fe; [cbn; discriminate|].
  destruct (first Username _ d) eqn:Fu; [cbn; discriminate|].
  intros _. exists user. repeat split; assumption.
Qed.

(** X7. After a register request answered 201, a login with the username
    and password of that request is answered 200 if the hasher verifies the
    password against the hash it has just made of it, and 401 if it does
    not: the new account is active and found under its username. *)
Theorem register_then_login (e e' : Env) (b : schemas.RegisterBody) (d : Db) :
  status_code (fst (handle e (PostRegister b) d)) = 201 ->
  status_code
    (fst (handle e'
            (PostLogin {| schemas.UserLogin.username := schemas.body_username b;
                          schemas.UserLogin.password := schemas.body_password b |})
            (snd (handle e (PostRegister b) d))))
  = if verify_password (schemas.body_password b)
         (hash_password (salt e) (schemas.body_password b))
    then 200 else 401.
Proof.
  intros H. destruct (register_created e b d H) as (user & Hv & Fe & Fu & ->).
  apply validated_fields in Hv. destruct Hv as (_ & _ & _ & Hu & Hp & _).
  cbn [snd]. rewrite handle_login. cbn [schemas.UserLogin.username
    schemas.UserLogin.password fst].
  rewrite <- Hu, (first_after_insert Username _ d _ _ Fu).
  cbn [column username new_row new_user new_username]. rewrite String.eqb_refl.
  cbn [hashed_password new_row new_user new_hashed_password is_active].
  rewrite Hp. destruct (verify_password _ _); reflexivity.
Qed.

(** X8. After a register request answered 201, get-by-username for the
    registered username is answered 200 with the very body the register
    request was answered with. *)
Theorem register_then_get (e e' : Env) (b : schemas.RegisterBody) (d : Db) :
  status_code (fst (handle e (PostRegister b) d)) = 201 ->
  let r := handle e' (GetUser (schemas.body_username b))
             (snd (handle e (PostRegister b) d)) in
  status_code (fst r) = 200 /\
  body (fst r) = body (fst (handle e (PostRegister b) d)).
Proof.
  intros H. destruct (register_created e b d H) as (user & Hv & Fe & Fu & ->).
  apply validated_fields in Hv. destruct Hv as (_ & _ & _ & Hu & _ & _).
  cbv zeta. cbn [snd fst]. rewrite handle_user.
  rewrite <- Hu, (first_after_insert Username _ d _ _ Fu).
  cbn [column username new_row new_user new_username]. rewrite String.eqb_refl.
  split; reflexivity.
Qed.

(** X9. After a register request answered 201 the listing has grown by
    one: listing everything gives the total of before plus one, every user
    listed before is still listed, and the new user is listed with the
    identifier the table had next, the validated email, the username and
    full name sent and the time of the request.  (The total stays within
    the 64-bit bound of the query.) *)
Theorem register_then_listed (e e' : Env) (b : schemas.RegisterBody) (d : Db) :
  status_code (fst (handle e (PostRegister b) d)) = 201 ->
  count d + 1 < 2 ^ 63 ->
  exists em items,
    EmailStr (schemas.body_email b) = Some em /\
    fst (handle e' (GetUsers (Some 0) (Some (count d + 1)))
           (snd (handle e (PostRegister b) d)))
    = {| status_code := 200;
         body := JObj [("total", JInt (count d + 1));
                       ("showing", JInt (count d + 1));
                       ("users", JArr items)] |} /\
    In (JObj [("id", JInt (id_seq d));
              ("email", JStr em);
              ("username", JStr (schemas.body_username b));
              ("full_name", JStr (schemas.body_full_name b));
              ("created_at", JDatetime (now e))]) items /\
    (forall j,
       In j (users_of (fst (handle e' (GetUsers (Some 0) (Some (count d))) d))) ->
       In j items).
Proof.
  intros H Hbound. destruct (register_created e b d H) as (user & Hv & Fe & Fu & ->).
  apply validated_fields in Hv. destruct Hv as (He & _ & _ & Hu & _ & Hf).
  exists (schemas.UserRegister.email user).
  exists (map public_view (rows d ++ [new_row d (now e) (new_user e user)])).
  split; [exact He|].
  assert (Hc : 0 <= count d) by (unfold count; lia).
  cbn [snd fst]. rewrite !handle_users. cbn [config.or_default fst].
  rewrite !offset_limit_ok by lia. cbn [rows skipn Z.to_nat].
  unfold count in *.
  replace (Z.to_nat (Z.of_nat (List.length (rows d)) + 1))
    with (List.length (rows d ++ [new_row d (now e) (new_user e user)]))
    by (rewrite length_app; cbn; lia).
  rewrite Nat2Z.id, !firstn_all. cbn [rows].
  split; [|split].
  - rewrite length_app, Nat2Z.inj_add. reflexivity.
  - rewrite map_app. apply in_or_app. right. left.
    unfold public_view. cbn. rewrite Hu, Hf. reflexivity.
  - intros j Hj. rewrite map_app. apply in_or_app. left. exact Hj.
Qed.

(** X10. After a register request answered 201, a second register request
    under the same username and an email that is still free is answered 409
    with the username message, and leaves the store as it was. *)
Theorem same_username_twice (e e' : Env) (b b' : schemas.RegisterBody)
    (u' : schemas.UserRegister.t) (d : Db) :
  status_code (fst (handle e (PostRegister b) d)) = 201 ->
  schemas.validate_register EmailStr b' = inr u' ->
  schemas.body_username b' = schemas.body_username b ->
  first Email (schemas.UserRegister.email u') (snd (handle e (PostRegister b) d))
    = None ->
  handle e' (PostRegister b') (snd (handle e (PostRegister b) d))
  = ({| status_code := 409;
        body := JObj [("detail", JStr "Username already taken")] |},
     snd (handle e (PostRegister b) d)).
Proof.
  intros H Hv' Hsame Hfree.
  destruct (register_created e b d H) as (user & Hv & Fe & Fu & Hreg).
  rewrite Hreg in *. cbn [snd] in *.
  rewrite handle_register, Hv', Hfree.
  apply validated_fields in Hv, Hv'.
  destruct Hv as (_ & _ & _ & Hu & _ & _). destruct Hv' as (_ & _ & _ & Hu' & _ & _).
  rewrite Hu', Hsame, <- Hu, (first_after_insert Username _ d _ _ Fu).
  cbn [column username new_row new_user new_username]. rewrite String.eqb_refl.
  reflexivity.
Qed.

(** ** main.py: get-by-username and login, read backwards *)

(** X11. Get-by-username is answered 404 exactly when no stored user has
    that username; a 200 answer shows a stored user whose username is the
    one asked for, disabled accounts included. *)
Theorem get_user_found_iff (e : Env) (name : string) (d : Db) :
  let r := fst (handle e (GetUser name) d) in
  (status_code r = 404 <-> ~ In name (map username (rows d))) /\
  (status_code r = 200 ->
   exists u, In u (rows d) /\ username u = name /\
             body r = schemas.UserResponse.model_dump
                        (schemas.UserResponse.from_attributes u)).
Proof.
  cbv zeta. rewrite handle_user. cbn [fst].
  destruct (first Username name d) as [u|] eqn:F.
  - unfold first in F. apply find_some in F. destruct F as [Hin Heq].
    apply String.eqb_eq in Heq. cbn in Heq. split.
    + split; [cbn; discriminate|].
      intros Hno. contradiction Hno. apply in_map_iff. exists u. split; assumption.
    + intros _. exists u. repeat split; assumption.
  - split.
    + split; [intros _; exact (first_none_not_in Username name d F)|reflexivity].
    + cbn. discriminate.
Qed.

(** X12. A login is answered 200 only for a stored user with the username
    of the request, whose stored hash verifies the password sent and whose
    account is active; the answer greets that username and carries the
    token made for that user. *)
Theorem login_ok_only_if (e : Env) (c : schemas.UserLogin.t) (d : Db) :
  status_code (fst (handle e (PostLogin c) d)) = 200 ->
  exists u,
    In u (rows d) /\ username u = schemas.UserLogin.username c /\
    verify_password (schemas.UserLogin.password c) (hashed_password u) = true /\
    is_active u = true /\
    body (fst (handle e (PostLogin c) d))
    = JObj [("access_token", JStr (token_for settings e u));
            ("token_type", JStr "bearer");
            ("message",
             JStr (String.append "Welcome back, "
                     (String.append (schemas.UserLogin.username c) "!")))].
Proof.
  rewrite handle_login. cbn [fst].
  destruct (first Username _ d) as [u|] eqn:F; [|cbn; discriminate].
  destruct (verify_password _ _) eqn:Hv; [|cbn; discriminate].
  destruct (is_active u) eqn:Ha; [|cbn; discriminate].
  intros _. unfold first in F. apply find_some in F. destruct F as [Hin Heq].
  apply String.eqb_eq in Heq. cbn in Heq.
  exists u. repeat split; try assumption.
  cbn [body]. unfold welcome. rewrite Heq. reflexivity.
Qed.

(** X13. What login calls: the password is verified exactly when a user
    with the username exists (an unknown username costs no verification), a
    token is asked for exactly when the answer is 200, and nothing is ever
    inserted. *)
Theorem login_calls (e : Env) (c : schemas.UserLogin.t) (d : Db) :
  let t := trace (run e (serve EmailStr (PostLogin c)) d) in
  existsb is_verify t = truthy (first Username (schemas.UserLogin.username c) d) /\
  existsb is_token t = (status_code (fst (handle e (PostLogin c) d)) =? 200) /\
  existsb is_add t = false.
Proof.
  cbv zeta. rewrite handle_login. cbn [serve fst]. rewrite run_bind, run_login.
  cbv zeta.
  destruct (first Username _ d) as [u|]; [|repeat split].
  destruct (verify_password _ _); [|repeat split].
  destruct (is_active u); repeat split.
Qed.

(** ** main.py: pages of the listing *)

Lemma users_of_listing (code : Z) (total showing : json) (items : list json) :
  users_of {| status_code := code;
              body := JObj [("total", total); ("showing", showing);
                            ("users", JArr items)] |} = items.
Proof. reflexivity. Qed.

Lemma firstn_plus {A : Type} (a b : nat) (l : list A) :
  firstn a l ++ firstn b (skipn a l) = firstn (a + b) l.
Proof.
  revert l. induction a as [|a IH]; intros l; [reflexivity|].
  destruct l as [|x l]; cbn.
  - rewrite firstn_nil. reflexivity.
  - rewrite IH. reflexivity.
Qed.

(** X14. For skip and limit from 0 up to the 64-bit bound of the query,
    list-users shows min(limit, max(0, total - skip)) users: never more
    than limit, never more than what is left after skip, and none once skip
    reaches the total. *)
Theorem list_users_showing (e : Env) (skip limit : Z) (d : Db) :
  0 <= skip < 2 ^ 63 -> 0 <= limit < 2 ^ 63 ->
  exists items,
    fst (handle e (GetUsers (Some skip) (Some limit)) d)
    = {| status_code := 200;
         body := JObj [("total", JInt (count d));
                       ("showing", JInt (Z.min limit (Z.max 0 (count d - skip))));
                       ("users", JArr items)] |} /\
    Z.of_nat (List.length items) = Z.min limit (Z.max 0 (count d - skip)).
Proof.
  intros Hs Hl. eexists. rewrite handle_users. cbn [config.or_default fst].
  rewrite (offset_limit_ok _ _ d Hs Hl).
  assert (Hlen : Z.of_nat (List.length
                   (firstn (Z.to_nat limit) (skipn (Z.to_nat skip) (rows d))))
                 = Z.min limit (Z.max 0 (count d - skip))).
  { rewrite length_firstn, length_skipn. unfold count. lia. }
  rewrite Hlen. split; [reflexivity|].
  rewrite length_map. exact Hlen.
Qed.

(** X15. Consecutive pages fit together on a store that does not change
    in between: for skip, a and b that are not negative, with skip + a and
    a + b within the 64-bit bound of the query, the users of the page of a
    from skip on, followed by those of the page of b from skip + a on, are
    the users of the page of a + b from skip on. *)
Theorem list_users_pages (e : Env) (skip a b : Z) (d : Db) :
  0 <= skip -> 0 <= a -> 0 <= b -> skip + a < 2 ^ 63 -> a + b < 2 ^ 63 ->
  users_of (fst (handle e (GetUsers (Some skip) (Some a)) d))
  ++ users_of (fst (handle e (GetUsers (Some (skip + a)) (Some b)) d))
  = users_of (fst (handle e (GetUsers (Some skip) (Some (a + b))) d)).
Proof.
  intros Hs Ha Hb Hsa Hab. rewrite !handle_users. cbn [config.or_default fst].
  rewrite !offset_limit_ok by lia.
  rewrite !users_of_listing, <- map_app. f_equal.
  rewrite !Z2Nat.inj_add by assumption.
  rewrite (Nat.add_comm (Z.to_nat skip)), <- skipn_skipn.
  apply firstn_plus.
Qed.

(** ** main.py: register against what is stored *)

Lemma first_some (c : Column) (v : string) (d : Db) (u : User) :
  In u (rows d) -> column c u = v -> first c v d <> None.
Proof.
  intros Hin Hc Hnone.
  pose proof (first_none c v d u Hnone Hin) as F.
  rewrite Hc, String.eqb_refl in F. discriminate.
Qed.

(** X18. A register request whose email is that of any stored account,
    active or disabled, is answered 409 with the email message; one whose
    email is free and whose username is that of any stored account is
    answered 409 with the username message; the store is left as it was in
    both cases. *)
Theorem register_taken (e : Env) (b : schemas.RegisterBody)
    (user : schemas.UserRegister.t) (d : Db) (u : User) :
  schemas.validate_register EmailStr b = inr user ->
  In u (rows d) ->
  (email u = schemas.UserRegister.email user ->
   handle e (PostRegister b) d
   = ({| status_code := 409;
         body := JObj [("detail", JStr "Email already registered")] |}, d)) /\
  (first Email (schemas.UserRegister.email user) d = None ->
   username u = schemas.UserRegister.username user ->
   handle e (PostRegister b) d
   = ({| status_code := 409;
         body := JObj [("detail", JStr "Username already taken")] |}, d)).
Proof.
  intros Hv Hin. rewrite handle_register, Hv. split.
  - intros He. pose proof (first_some Email _ d u Hin He) as F.
    destruct (first Email _ d); [reflexivity|contradiction F; reflexivity].
  - intros Hfree Hu. rewrite Hfree.
    pose proof (first_some Username _ d u Hin Hu) as F.
    destruct (first Username _ d); [reflexivity|contradiction F; reflexivity].
Qed.

End Further.

(** ** config.py and the routes that only read the settings *)


(** X17. The root and health answers show the version and the environment
    name the settings were loaded with (1.0.0 and production when the
    environment does not supply them), and nothing else of the settings:
    they are the same under any secret key, algorithm, token lifetime,
    database URL and debug flag. *)
Theorem root_and_health_show (env : config.Environ) (s s' : config.Settings) :
  config.load env = Some s ->
  dict_get "version" (root s)
    = Some (JStr (config.or_default (config.env_APP_VERSION env) "1.0.0")) /\
  dict_get "environment" (health_check s)
    = Some (JStr (config.or_default (config.env_ENVIRONMENT env) "production")) /\
  (config.APP_VERSION s' = config.APP_VERSION s ->
   config.ENVIRONMENT s' = config.ENVIRONMENT s ->
   root s' = root s /\ health_check s' = health_check s).
Proof.
  unfold config.load.
  destruct (config.env_SECRET_KEY env) as [key|]; [|discriminate].
  destruct (config.env_DATABASE_URL env) as [url|]; [|discriminate].
  destruct (config.typed (config.env_ACCESS_TOKEN_EXPIRE_MINUTES env) 1440)
    as [minutes|]; [|discriminate].
  destruct (config.typed (config.env_DEBUG env) false) as [debug|]; [|discriminate].
  intros Hs. injection Hs as <-.
  split; [reflexivity|]. split; [reflexivity|].
  intros Hv He. unfold root, health_check. rewrite Hv, He. split; reflexivity.
Qed.

(** ** The further properties at concrete requests and stores *)

Lemma register_body_accepted_iff_witness :
  schemas.validate_register demo.EmailStr (demo.body "alice")
  = inr (demo.validated (demo.body "alice")).
Proof.
  apply (proj2 (register_body_accepted_iff demo.EmailStr (demo.body "alice")
                  (demo.validated (demo.body "alice")))).
  repeat split; try reflexivity; cbn; lia.
Defined.

Lemma register_errors_by_field_witness :
  map schemas.err_field
    match schemas.validate_register demo.EmailStr demo.refused with
    | inl errs => errs
    | inr _ => []
    end = ["email"; "username"; "password"].
Proof.
  destruct (schemas.validate_register demo.EmailStr demo.refused) as [errs|u] eqn:Hv;
    [|vm_compute in Hv; discriminate Hv].
  rewrite (proj2 (register_errors_by_field demo.EmailStr demo.refused errs Hv)).
  vm_compute. reflexivity.
Defined.

Lemma register_store_effect_witness :
  (exists u, snd (demo.handle demo.env (PostRegister (demo.body "carol"))
                    demo.with_disabled)
             = {| rows := rows demo.with_disabled ++ [u]; id_seq := 4 |} /\
             id u = 3 /\ username u = "carol" /\ is_active u = true) /\
  snd (demo.handle demo.env (PostRegister (demo.body "alice")) demo.with_disabled)
  = demo.with_disabled.
Proof.
  pose proof (register_store_effect (auth_module := demo.auth_module) demo.EmailStr
                demo.settings true demo.env (demo.body "carol") demo.with_disabled)
    as Hnew.
  pose proof (register_store_effect (auth_module := demo.auth_module) demo.EmailStr
                demo.settings true demo.env (demo.body "alice") demo.with_disabled)
    as Hold.
  cbv zeta in Hnew, Hold. split.
  - destruct (proj1 Hnew) as (u & Hs & Hid & _ & Hu & _ & _ & Ha & _);
      [vm_compute; reflexivity|].
    exists u. repeat split; assumption.
  - apply (proj2 Hold). vm_compute. discriminate.
Defined.

Lemma reads_leave_store_witness :
  snd (demo.handle demo.env (GetUsers (Some 1) (Some 1)) demo.with_disabled)
  = demo.with_disabled.
Proof.
  apply (reads_leave_store (auth_module := demo.auth_module) demo.EmailStr
           demo.settings true demo.env (GetUsers (Some 1) (Some 1))
           demo.with_disabled).
  intros b. discriminate.
Defined.

Lemma reachable_unique_witness :
  unique_users (demo.registered ["alice"; "bobby"; "carol"]).
Proof.
  apply (reachable_unique (auth_module := demo.auth_module) demo.EmailStr
           demo.settings true).
  unfold demo.registered. cbn [fold_left].
  repeat apply reachable_handle. apply reachable_empty.
Defined.

Lemma register_then_login_witness :
  status_code
    (fst (demo.handle demo.env (PostLogin (demo.credentials "carol" "correct horse"))
            (snd (demo.handle demo.env (PostRegister (demo.body "carol"))
                    demo.with_disabled)))) = 200.
Proof.
  apply (register_then_login (auth_module := demo.auth_module) demo.EmailStr
           demo.settings true demo.env demo.env (demo.body "carol")
           demo.with_disabled).
  vm_compute. reflexivity.
Defined.

Lemma register_then_get_witness :
  body (fst (demo.handle demo.env (GetUser "carol")
               (snd (demo.handle demo.env (PostRegister (demo.body "carol"))
                       demo.with_disabled))))
  = body (fst (demo.handle demo.env (PostRegister (demo.body "carol"))
                 demo.with_disabled)).
Proof.
  apply (register_then_get (auth_module := demo.auth_module) demo.EmailStr
           demo.settings true demo.env demo.env (demo.body "carol")
           demo.with_disabled).
  vm_compute. reflexivity.
Defined.

Lemma register_then_listed_witness :
  exists items,
    fst (demo.handle demo.env (GetUsers (Some 0) (Some 3))
           (snd (demo.handle demo.env (PostRegister (demo.body "carol"))
                   demo.with_disabled)))
    = {| status_code := 200;
         body := JObj [("total", JInt 3); ("showing", JInt 3);
                       ("users", JArr items)] |} /\
    In (JObj [("id", JInt 3);
              ("email", JStr "carol@example.com");
              ("username", JStr "carol");
              ("full_name", JStr "Test User");
              ("created_at", JDatetime 1700000000)]) items.
Proof.
  destruct (register_then_listed (auth_module := demo.auth_module) demo.EmailStr
              demo.settings true demo.env demo.env (demo.body "carol")
              demo.with_disabled) as (em & items & He & Hl & Hin & _);
    [vm_compute; reflexivity|vm_compute; reflexivity|].
  exists items. split; [exact Hl|].
  replace em with "carol@example.com" in Hin
    by (vm_compute in He; congruence).
  exact Hin.
Defined.

Lemma same_username_twice_witness :
  fst (demo.handle demo.env (PostRegister demo.alice_elsewhere)
         (snd (demo.handle demo.env (PostRegister (demo.body "alice")) empty)))
  = conflict "Username already taken".
Proof.
  unfold demo.handle.
  rewrite (same_username_twice (auth_module := demo.auth_module) demo.EmailStr
             demo.settings true demo.env demo.env (demo.body "alice")
             demo.alice_elsewhere (demo.validated demo.alice_elsewhere) empty
             eq_refl eq_refl eq_refl eq_refl).
  reflexivity.
Defined.

Lemma get_user_found_iff_witness :
  status_code (fst (demo.handle demo.env (GetUser "carol") demo.with_disabled)) = 404 /\
  exists u, In u (rows demo.with_disabled) /\ username u = "bobby" /\
            is_active u = false.
Proof.
  pose proof (get_user_found_iff (auth_module := demo.auth_module) demo.EmailStr
                demo.settings true demo.env "carol" demo.with_disabled) as Hc.
  pose proof (get_user_found_iff (auth_module := demo.auth_module) demo.EmailStr
                demo.settings true demo.env "bobby" demo.with_disabled) as Hb.
  cbv zeta in Hc, Hb. split.
  - apply (proj1 Hc). vm_compute. intros [H|[H|[]]]; discriminate H.
  - destruct (proj2 Hb) as (u & Hin & Hu & Hbody); [vm_compute; reflexivity|].
    exists u. split; [exact Hin|]. split; [exact Hu|].
    vm_compute in Hin. destruct Hin as [<-|[<-|[]]];
      [vm_compute in Hu; discriminate Hu|reflexivity].
Defined.

Lemma login_ok_only_if_witness :
  exists u, In u (rows demo.with_disabled) /\ username u = "alice" /\
            is_active u = true.
Proof.
  destruct (login_ok_only_if (auth_module := demo.auth_module) demo.EmailStr
              demo.settings true demo.env (demo.credentials "alice" "correct horse")
              demo.with_disabled) as (u & Hin & Hu & _ & Ha & _);
    [vm_compute; reflexivity|].
  exists u. repeat split; assumption.
Defined.

Lemma list_users_showing_witness :
  exists items,
    fst (demo.handle demo.env (GetUsers (Some 10) (Some 10))
           (demo.registered demo.fifteen))
    = {| status_code := 200;
         body := JObj [("total", JInt 15); ("showing", JInt 5);
                       ("users", JArr items)] |} /\
    Z.of_nat (List.length items) = 5.
Proof.
  destruct (list_users_showing (auth_module := demo.auth_module) demo.EmailStr
              demo.settings true demo.env 10 10 (demo.registered demo.fifteen))
    as (items & Hr & Hn); [lia|lia|].
  exists items. split; [exact Hr|exact Hn].
Defined.

Lemma list_users_pages_witness :
  users_of (fst (demo.handle demo.env (GetUsers (Some 0) (Some 10))
                   (demo.registered demo.fifteen)))
  ++ users_of (fst (demo.handle demo.env (GetUsers (Some 10) (Some 10))
                      (demo.registered demo.fifteen)))
  = users_of (fst (demo.handle demo.env (GetUsers (Some 0) (Some 20))
                     (demo.registered demo.fifteen))).
Proof.
  apply (list_users_pages (auth_module := demo.auth_module) demo.EmailStr
           demo.settings true demo.env 0 10 10 (demo.registered demo.fifteen));
    lia.
Defined.

Lemma register_taken_witness :
  demo.handle demo.env (PostRegister (demo.body "bobby")) demo.with_disabled
  = (conflict "Email already registered", demo.with_disabled).
Proof.
  assert (Hin : exists u, In u (rows demo.with_disabled) /\
                          email u = "bobby@example.com" /\ is_active u = false).
  { eexists. split; [vm_compute; right; left; reflexivity|split; reflexivity]. }
  destruct Hin as (u & Hin & He & _).
  apply (proj1 (register_taken (auth_module := demo.auth_module) demo.EmailStr
                  demo.settings true demo.env (demo.body "bobby")
                  (demo.validated (demo.body "bobby")) demo.with_disabled u
                  eq_refl Hin)).
  exact He.
Defined.


Lemma root_and_health_show_witness :
  dict_get "version" (root (demo.settings_of (Some 30))) = Some (JStr "1.0.0") /\
  dict_get "environment" (health_check (demo.settings_of (Some 30)))
    = Some (JStr "production") /\
  root (demo.settings_of None) = root (demo.settings_of (Some 30)).
Proof.
  destruct (root_and_health_show (demo.environ (Some 30))
              (demo.settings_of (Some 30)) (demo.settings_of None) eq_refl)
    as (Hv & He & Hsame).
  split; [exact Hv|]. split; [exact He|].
  apply Hsame; reflexivity.
Defined.
